(** * Friegent: the NandaHub mailbox store, the recommendation worker and
    the auto-search orchestrator

    Shallow embedding of [nanda_hub.py] and of the messaging core of
    [api_server_llm_a2a_auto_db_ec2.py], with the properties of the
    specification stated over it. *)

From Stdlib Require Import ZArith Ascii String List Lia.
From stdpp Require Import base option list gmap strings fin_maps pretty.

Local Open Scope string_scope.
Local Open Scope Z_scope.
Local Open Scope list_scope.

(** ** Python values

    The payload of a message is [Dict[str, Any]]: an open mapping from
    strings to JSON-like values.  Dictionaries keep insertion order, so
    they are association lists.  Floats are not represented. *)

#[local] Unset Elimination Schemes.
Inductive pyval : Type :=
| VNone
| VBool (b : bool)
| VInt (z : Z)
| VStr (s : string)
| VList (l : list pyval)
| VDict (d : list (string * pyval)).
#[local] Set Elimination Schemes.

Abbreviation pydict := (list (string * pyval)).

(** [d.get(k)] as an option; the first binding of a key is the only one a
    dictionary built by a literal or by JSON decoding has. *)
Fixpoint dict_get (d : pydict) (k : string) : option pyval :=
  match d with
  | [] => None
  | (k', v) :: d' => if decide (k' = k) then Some v else dict_get d' k
  end.

(** [d.get(k, dflt)]. *)
Definition py_get (d : pydict) (k : string) (dflt : pyval) : pyval :=
  default dflt (dict_get d k).

(** [v != s] for a string literal [s] is [negb (py_is_str v s)]. *)
Definition py_is_str (v : pyval) (s : string) : bool :=
  match v with
  | VStr s' => bool_decide (s' = s)
  | _ => false
  end.

(** [d or {}] on a dictionary. *)
Definition py_or_empty (d : pydict) : pydict :=
  match d with
  | [] => []
  | _ => d
  end.

(** [l[:n]] for a Python int [n]: a negative stop counts from the end. *)
Definition py_slice_to {A} (l : list A) (n : Z) : list A :=
  if 0 <=? n then take (Z.to_nat n) l
  else take (length l - Z.to_nat (- n))%nat l.

(** ** nanda_hub.py *)

Record AgentRegistration := {
  agent_id : string;
  agent_type : string;
  display_name : string;
  personality_summary : string
}.

Record A2AMessage := {
  message_id : string;
  from_agent_id : string;
  to_agent_id : string;
  payload : pydict
}.

Record NandaHub := {
  agents : gmap string AgentRegistration;
  inboxes : gmap string (list A2AMessage)
}.

(** [NandaHub.__init__] *)
Definition NandaHub_init : NandaHub := {| agents := ∅; inboxes := ∅ |}.

(** [self.inboxes.get(agent_id, [])] *)
Definition inbox_of (self : NandaHub) (aid : string) : list A2AMessage :=
  default [] (inboxes self !! aid).

Definition register_agent (self : NandaHub)
    (aid atype dname psummary : string) : AgentRegistration * NandaHub :=
  let reg := {| agent_id := aid; agent_type := atype;
                display_name := dname; personality_summary := psummary |} in
  let agents' := <[aid := reg]> (agents self) in
  let inboxes' :=
    match inboxes self !! aid with
    | None => <[aid := []]> (inboxes self)
    | Some _ => inboxes self
    end in
  (reg, {| agents := agents'; inboxes := inboxes' |}).

Definition get_agent (self : NandaHub) (aid : string) : option AgentRegistration :=
  agents self !! aid.

(** [send_message]; [uuid] is the value of [str(uuid.uuid4())] drawn by
    this call. *)
Definition send_message (self : NandaHub) (uuid : string)
    (from to : string) (pl : pydict) : A2AMessage * NandaHub :=
  let inboxes1 :=
    match inboxes self !! to with
    | None => <[to := []]> (inboxes self)
    | Some _ => inboxes self
    end in
  let msg := {| message_id := uuid; from_agent_id := from;
                to_agent_id := to; payload := pl |} in
  let inboxes2 := <[to := default [] (inboxes1 !! to) ++ [msg]]> inboxes1 in
  (msg, {| agents := agents self; inboxes := inboxes2 |}).

Definition get_inbox (self : NandaHub) (aid : string) (clear : bool)
    : list A2AMessage * NandaHub :=
  let msgs := inbox_of self aid in
  if clear
  then (msgs, {| agents := agents self; inboxes := <[aid := []]> (inboxes self) |})
  else (msgs, self).

(** A client of the hub: any interleaving of the three operations. *)
Inductive hub_call :=
| CallRegister (aid atype dname psummary : string)
| CallSend (uuid from to : string) (pl : pydict)
| CallGetInbox (aid : string) (clear : bool).

(** Runs one call; returns the message when the call is a send. *)
Definition run_call (c : hub_call) (h : NandaHub) : option A2AMessage * NandaHub :=
  match c with
  | CallRegister aid atype dname psummary =>
      (None, (register_agent h aid atype dname psummary).2)
  | CallSend uuid from to pl =>
      let '(m, h') := send_message h uuid from to pl in (Some m, h')
  | CallGetInbox aid clear => (None, (get_inbox h aid clear).2)
  end.

(** The message a call sent, if it was a send. *)
Definition sent_by (om : option A2AMessage) : list A2AMessage :=
  from_option (λ m, [m]) [] om.

(** Runs the calls in order; returns the messages sent, in send order. *)
Fixpoint run_calls (cs : list hub_call) (h : NandaHub) : list A2AMessage * NandaHub :=
  match cs with
  | [] => ([], h)
  | c :: cs' =>
      let '(om, h1) := run_call c h in
      let '(ms, h2) := run_calls cs' h1 in
      (sent_by om ++ ms, h2)
  end.

(** A drain of [aid]'s mailbox. *)
Definition drains (aid : string) (c : hub_call) : Prop :=
  match c with
  | CallGetInbox aid' true => aid' = aid
  | _ => False
  end.

Definition addressed_to (aid : string) (ms : list A2AMessage) : list A2AMessage :=
  filter (λ m, to_agent_id m = aid) ms.

(** ** SQLite tables of api_server_llm_a2a_auto_db_ec2.py

    The tables created by [init_db], as lists of rows in the order the
    engine returns them. *)

Record AgentRow := {
  a_agent_id : string;
  a_agent_type : string;
  a_display_name : string;
  a_personality_summary : string
}.

Record ProfileRow := {
  p_user_id : string;
  p_name : string;
  p_personality : string;
  p_values_text : string
}.

Record ExperienceRow := {
  e_user_id : string;
  e_name : string;
  e_notes : string;
  e_rating : Z
}.

Record Database := {
  tbl_agents : list AgentRow;
  tbl_profiles : list ProfileRow;
  tbl_experiences : list ExperienceRow
}.

(** The dictionary built by [db_load_profile]: it always has the four keys
    ["name"], ["personality"], ["values"], ["experiences"], so it is never
    falsy. *)
Record Experience := {
  exp_name : string;
  exp_notes : string;
  exp_rating : Z
}.

Record Profile := {
  prof_name : string;
  prof_personality : string;
  prof_values : string;
  prof_experiences : list Experience
}.

(** ** Exceptions and results *)

Inductive exn :=
| HTTPException (status_code : Z) (detail : string)
| ValueError (msg : string)
| SqliteBindError
| OverflowError
| AttributeError
| ValidationError.

Inductive result (A : Type) :=
| Ok (a : A)
| Raise (e : exn).
Arguments Ok {A} a.
Arguments Raise {A} e.

(** Binding a Python value as the parameter of [WHERE user_id = ?]:
    [None] is NULL and matches no row, an integer is compared as its
    decimal text (the column has TEXT affinity), a list or a dict cannot
    be bound. *)
Definition sqlite_bind_text (v : pyval) : result (option string) :=
  match v with
  | VNone => Ok None
  | VStr s => Ok (Some s)
  | VInt z =>
      if bool_decide (- 2 ^ 63 <= z < 2 ^ 63) then Ok (Some (pretty z))
      else Raise OverflowError
  | VBool b => Ok (Some (if b then "1" else "0"))
  | VList _ | VDict _ => Raise SqliteBindError
  end.

Definition db_load_profile (d : Database) (user_id : pyval) : result (option Profile) :=
  match sqlite_bind_text user_id with
  | Raise e => Raise e
  | Ok None => Ok None
  | Ok (Some uid) =>
      match List.find (λ r, bool_decide (p_user_id r = uid)) (tbl_profiles d) with
      | None => Ok None
      | Some row =>
          let exp_rows := filter (λ e, e_user_id e = uid) (tbl_experiences d) in
          Ok (Some {| prof_name := p_name row;
                      prof_personality := p_personality row;
                      prof_values := p_values_text row;
                      prof_experiences :=
                        map (λ e, {| exp_name := e_name e; exp_notes := e_notes e;
                                     exp_rating := e_rating e |}) exp_rows |})
      end
  end.

(** [SELECT a.agent_id FROM agents a JOIN profiles p ON a.agent_id = p.user_id
     WHERE a.agent_type = 'freigent' AND a.agent_id != ?] *)
Definition db_list_helper_agent_ids (d : Database) (base_user_id : string) : list string :=
  flat_map
    (λ a, map (λ _, a_agent_id a)
              (filter (λ p, a_agent_id a = p_user_id p) (tbl_profiles d)))
    (filter (λ a, a_agent_type a = "freigent" ∧ a_agent_id a ≠ base_user_id)
            (tbl_agents d)).

(** ** The outside world

    What the process cannot decide: the identifiers drawn by [uuid.uuid4],
    what the Anthropic client and [json.loads] produce, and the text
    Python prints for a container or an exception. *)

Inductive llm_reply :=
| LlmRaised (str_e : string)
| LlmParsed (parsed : pyval).

Record Externals := {
  uuid4 : nat → string;
  anthropic : nat → string → Profile → pyval → llm_reply;
  py_repr : pyval → string;
  type_error_text : pyval → string
}.

Record RealJsonFreigent := {
  rjf_agent_id : string;
  rjf_api_key : string;
  model_name : string
}.

(** What a run can be observed to do, in order. *)
Inductive event :=
| EvDbLoadProfile (user_id : pyval)
| EvDbListHelpers (base_user_id : string)
| EvGenerate (aid : string) (profile : Profile) (query : pyval)
| EvRegister (aid : string)
| EvSend (m : A2AMessage)
| EvGetInbox (aid : string) (clear : bool) (msgs : list A2AMessage).

(** The process state: environment variables, the SQLite file, the
    [FREIGENTS] cache, the [hub] singleton, how many identifiers and model
    replies were drawn, and the events so far. *)
Record World := {
  environ : gmap string string;
  db : Database;
  FREIGENTS : gmap string RealJsonFreigent;
  hub : NandaHub;
  uuid_calls : nat;
  llm_calls : nat;
  trace : list event
}.

Definition set_hub (h : NandaHub) (w : World) : World :=
  {| environ := environ w; db := db w; FREIGENTS := FREIGENTS w; hub := h;
     uuid_calls := uuid_calls w; llm_calls := llm_calls w; trace := trace w |}.

Definition set_FREIGENTS (f : gmap string RealJsonFreigent) (w : World) : World :=
  {| environ := environ w; db := db w; FREIGENTS := f; hub := hub w;
     uuid_calls := uuid_calls w; llm_calls := llm_calls w; trace := trace w |}.

Definition tick_uuid (w : World) : World :=
  {| environ := environ w; db := db w; FREIGENTS := FREIGENTS w; hub := hub w;
     uuid_calls := S (uuid_calls w); llm_calls := llm_calls w; trace := trace w |}.

Definition tick_llm (w : World) : World :=
  {| environ := environ w; db := db w; FREIGENTS := FREIGENTS w; hub := hub w;
     uuid_calls := uuid_calls w; llm_calls := S (llm_calls w); trace := trace w |}.

Definition log (e : event) (w : World) : World :=
  {| environ := environ w; db := db w; FREIGENTS := FREIGENTS w; hub := hub w;
     uuid_calls := uuid_calls w; llm_calls := llm_calls w;
     trace := trace w ++ [e] |}.

(** ** Computations: state that survives an exception *)

Definition M (A : Type) : Type := World → result A * World.

Definition ret {A} (a : A) : M A := λ w, (Ok a, w).

Definition raise {A} (e : exn) : M A := λ w, (Raise e, w).

Definition bind {A B} (m : M A) (k : A → M B) : M B :=
  λ w, match m w with
       | (Ok a, w') => k a w'
       | (Raise e, w') => (Raise e, w')
       end.

Notation "x <~ m ;; k" := (bind m (λ x, k))
  (at level 100, m at next level, right associativity,
   format "x  <~  m  ;;  '/' k").

(** ** Python helpers used by the server *)

Definition nl : string := String "010"%char "".

(** [k in s] on strings. *)
Fixpoint is_substring (k s : string) : bool :=
  String.prefix k s ||
  match s with
  | EmptyString => false
  | String _ s' => is_substring k s'
  end.

(** [sep.join(l)] *)
Fixpoint py_join (sep : string) (l : list string) : string :=
  match l with
  | [] => ""
  | [x] => x
  | x :: l' => x +:+ sep +:+ py_join sep l'
  end.

(** [d[k] = v]: replaces in place, or appends a new key. *)
Fixpoint dict_set (d : pydict) (k : string) (v : pyval) : pydict :=
  match d with
  | [] => [(k, v)]
  | (k', v') :: d' =>
      if decide (k' = k) then (k, v) :: d' else (k', v') :: dict_set d' k v
  end.

(** [k in v] for a string key; [None] is a [TypeError]. *)
Definition py_contains (v : pyval) (k : string) : option bool :=
  match v with
  | VDict d => Some (bool_decide (is_Some (dict_get d k)))
  | VList l => Some (existsb (λ x, py_is_str x k) l)
  | VStr s => Some (is_substring k s)
  | _ => None
  end.

(** [v[k] = x] for a string key; [None] is a [TypeError]. *)
Definition py_setitem (v : pyval) (k : string) (x : pyval) : option pyval :=
  match v with
  | VDict d => Some (VDict (dict_set d k x))
  | _ => None
  end.

(** [if k not in v: v[k] = x] *)
Definition py_setdefault (v : pyval) (k : string) (x : pyval) : option pyval :=
  match py_contains v k with
  | None => None
  | Some true => Some v
  | Some false => py_setitem v k x
  end.

(** [v.get(k, dflt)]; a value that is not a dictionary has no [get]. *)
Definition py_method_get (v : pyval) (k : string) (dflt : pyval) : M pyval :=
  match v with
  | VDict d => ret (py_get d k dflt)
  | _ => raise AttributeError
  end.

(** [isinstance(v, list)] followed by [acc.extend(v)] *)
Definition extend_if_list (acc : list pyval) (v : pyval) : list pyval :=
  match v with
  | VList l => acc ++ l
  | _ => acc
  end.

(** ** The server: api_server_llm_a2a_auto_db_ec2.py *)

Record HelperResult := {
  hr_agent_id : string;
  hr_result : pydict
}.

Record AutoSearchResponse := {
  base_agent_id : string;
  helper_agent_ids : list string;
  base_result : pydict;
  helper_results : list HelperResult;
  merged_products : list pydict;
  merged_summary_for_user : string
}.

(** Validation of a [Dict[str, Any]] field: a dictionary is accepted as
    it is, anything else is refused. *)
Definition as_dict (v : pyval) : option pydict :=
  match v with
  | VDict d => Some d
  | _ => None
  end.

(** Validation of a [List[Dict[str, Any]]] field. *)
Definition as_dict_list (l : list pyval) : option (list pydict) :=
  mapM as_dict l.

(** *** What the worker and the orchestrator read in a message *)

(** [payload.get("type")] is ["recommendation_request"]. *)
Definition is_request (m : A2AMessage) : bool :=
  py_is_str (py_get (py_or_empty (payload m)) "type" VNone) "recommendation_request".

(** [payload.get("type")] is ["recommendation_response"]. *)
Definition is_response (m : A2AMessage) : bool :=
  py_is_str (py_get (py_or_empty (payload m)) "type" VNone) "recommendation_response".

(** [payload.get("query", "")] *)
Definition request_query (m : A2AMessage) : pyval :=
  py_get (py_or_empty (payload m)) "query" (VStr "").

(** [payload.get("from_user_id", from_agent)] *)
Definition resolved_profile_id (m : A2AMessage) : pyval :=
  py_get (py_or_empty (payload m)) "from_user_id" (VStr (from_agent_id m)).

(** [payload.get("result", {})] *)
Definition response_result (m : A2AMessage) : pyval :=
  py_get (py_or_empty (payload m)) "result" (VDict []).

(** The payloads the worker sends back. *)
Definition error_payload (m : A2AMessage) (error_text : string) : pydict :=
  [("type", VStr "recommendation_error");
   ("reason", VStr error_text);
   ("original_message_id", VStr (message_id m))].

Definition reply_payload (m : A2AMessage) (query profile_user_id result : pyval) : pydict :=
  [("type", VStr "recommendation_response");
   ("original_message_id", VStr (message_id m));
   ("query", query);
   ("profile_user_id", profile_user_id);
   ("result", result)].

(** The summaries the worker appends to [processed]. *)
Definition processed_ignored (m : A2AMessage) (reason : string) : pydict :=
  [("request_message_id", VStr (message_id m));
   ("status", VStr "ignored");
   ("reason", VStr reason)].

Definition processed_error (m : A2AMessage) (error_text : string) : pydict :=
  [("request_message_id", VStr (message_id m));
   ("status", VStr "error");
   ("error", VStr error_text)].

Definition processed_ok (m : A2AMessage) (from_agent : string) : pydict :=
  [("request_message_id", VStr (message_id m));
   ("status", VStr "ok");
   ("sent_to", VStr from_agent)].

(** The payload of the request the orchestrator sends to a helper. *)
Definition request_payload (user_id query : string) : pydict :=
  [("type", VStr "recommendation_request");
   ("from_user_id", VStr user_id);
   ("query", VStr query)].

(** [s] answers the request [m] on behalf of [worker]. *)
Definition answers (worker : string) (m s : A2AMessage) : Prop :=
  from_agent_id s = worker ∧
  to_agent_id s = from_agent_id m ∧
  dict_get (payload s) "original_message_id" = Some (VStr (message_id m)) ∧
  is_request s = false.

(** The [request_message_id] of a summary. *)
Definition request_message_id (out : pydict) : option pyval :=
  dict_get out "request_message_id".

(** *** Reading a trace *)

(** The messages sent, in order. *)
Definition sends_of (evs : list event) : list A2AMessage :=
  omap (λ e, match e with EvSend m => Some m | _ => None end) evs.

(** The requests sent and the mailboxes drained, in order. *)
Inductive mailbox_op :=
| Requested (peer : string)
| Drained (aid : string).

Definition peer_op (e : event) : option mailbox_op :=
  match e with
  | EvSend m => if is_request m then Some (Requested (to_agent_id m)) else None
  | EvGetInbox aid true _ => Some (Drained aid)
  | _ => None
  end.

Definition peer_ops (evs : list event) : list mailbox_op := omap peer_op evs.

(** [result.get("products", [])] when it is a list, nothing otherwise. *)
Definition products_of (r : pydict) : list pyval :=
  extend_if_list [] (py_get r "products" (VList [])).

(** The sender and the result of a helper's answer, as the loop reads
    them. *)
Definition sender_and_result (m : A2AMessage) : string * pyval :=
  (from_agent_id m, response_result m).

Definition agent_and_result (hr : HelperResult) : string * pyval :=
  (hr_agent_id hr, VDict (hr_result hr)).

Section Program.
Context (ext : Externals).

(** [f"{v}"] *)
Definition py_str (v : pyval) : string :=
  match v with
  | VNone => "None"
  | VBool true => "True"
  | VBool false => "False"
  | VInt z => pretty z
  | VStr s => s
  | VList _ | VDict _ => py_repr ext v
  end.

(** *** The hub singleton *)

Definition hub_register_agent (aid atype dname psummary : string) : M AgentRegistration :=
  λ w, let r := register_agent (hub w) aid atype dname psummary in
       (Ok r.1, log (EvRegister aid) (set_hub r.2 w)).

Definition hub_send_message (from to : string) (pl : pydict) : M A2AMessage :=
  λ w, let r := send_message (hub w) (uuid4 ext (uuid_calls w)) from to pl in
       (Ok r.1, log (EvSend r.1) (set_hub r.2 (tick_uuid w))).

Definition hub_get_inbox (aid : string) (clear : bool) : M (list A2AMessage) :=
  λ w, let r := get_inbox (hub w) aid clear in
       (Ok r.1, log (EvGetInbox aid clear r.1) (set_hub r.2 w)).

(** The message [hub.send_message(from, to, pl)] creates in [w]. *)
Definition new_message (w : World) (from to : string) (pl : pydict) : A2AMessage :=
  {| message_id := uuid4 ext (uuid_calls w); from_agent_id := from;
     to_agent_id := to; payload := pl |}.

(** *** The database helpers *)

Definition load_profile (user_id : pyval) : M (option Profile) :=
  λ w, (db_load_profile (db w) user_id, log (EvDbLoadProfile user_id) w).

Definition list_helper_agent_ids (base_user_id : string) : M (list string) :=
  λ w, (Ok (db_list_helper_agent_ids (db w) base_user_id),
        log (EvDbListHelpers base_user_id) w).

(** *** freigent_real_json.py *)

(** [RealJsonFreigent.__init__] *)
Definition RealJsonFreigent_init (aid : string) : M RealJsonFreigent :=
  λ w, match environ w !! "ANTHROPIC_API_KEY" with
       | None =>
           (Raise (ValueError "ANTHROPIC_API_KEY is not set in environment/.env"), w)
       | Some api_key =>
           if decide (api_key = "")
           then (Raise (ValueError "ANTHROPIC_API_KEY is not set in environment/.env"), w)
           else (Ok {| rjf_agent_id := aid; rjf_api_key := api_key;
                       model_name := default "claude-3-haiku-20240307"
                                       (environ w !! "ANTHROPIC_MODEL") |}, w)
       end.

Definition get_or_create_freigent (user_id : string) : M RealJsonFreigent :=
  λ w, match FREIGENTS w !! user_id with
       | Some f => (Ok f, w)
       | None =>
           match RealJsonFreigent_init user_id w with
           | (Ok f, w') => (Ok f, set_FREIGENTS (<[user_id := f]> (FREIGENTS w')) w')
           | (Raise e, w') => (Raise e, w')
           end
       end.

(** The client of [user_id] is cached, or can be built. *)
Definition freigent_available (w : World) (user_id : string) : Prop :=
  is_Some (FREIGENTS w !! user_id) ∨
  ∃ api_key, environ w !! "ANTHROPIC_API_KEY" = Some api_key ∧ api_key ≠ "".

(** The [except] branch of [generate_recommendations_json]. *)
Definition fallback (str_e : string) : pyval :=
  VDict [("products", VList []);
         ("summary_for_user",
          VStr ("The agent tried to return a result, but there was an error "
                +:+ "parsing the JSON output." +:+ nl +:+ nl +:+ "Error: " +:+ str_e))].

(** The end of the [try] block: the two expected keys are ensured; on a
    parsed value that is not a dictionary this raises a [TypeError], which
    the [except] catches. *)
Definition ensure_keys (parsed : pyval) : pyval :=
  match py_setdefault parsed "products" (VList []) with
  | None => fallback (type_error_text ext parsed)
  | Some parsed1 =>
      match py_setdefault parsed1 "summary_for_user"
              (VStr "No summary_for_user provided by the model.") with
      | None => fallback (type_error_text ext parsed)
      | Some parsed2 => parsed2
      end
  end.

(** What the [n]-th call of the model returns to the caller. *)
Definition llm_result (n : nat) (self : RealJsonFreigent)
    (user_profile : Profile) (query : pyval) : pyval :=
  match anthropic ext n (model_name self) user_profile query with
  | LlmRaised str_e => fallback str_e
  | LlmParsed parsed => ensure_keys parsed
  end.

Definition generate_recommendations_json (self : RealJsonFreigent)
    (user_profile : Profile) (query : pyval) : M pyval :=
  λ w, (Ok (llm_result (llm_calls w) self user_profile query),
        log (EvGenerate (rjf_agent_id self) user_profile query) (tick_llm w)).

(** *** The worker *)

(** The two texts the worker formats. *)
Definition unsupported_type_text (msg_type : pyval) : string :=
  "Unsupported payload.type '" +:+ py_str msg_type +:+ "'".

Definition missing_profile_text (profile_user_id : pyval) : string :=
  "No profile found for user_id '" +:+ py_str profile_user_id +:+ "'".

(** The summary of a message that is not a request. *)
Definition ignored_summary (m : A2AMessage) : pydict :=
  processed_ignored m
    (unsupported_type_text (py_get (py_or_empty (payload m)) "type" VNone)).

(** The body of the loop of [process_recommendation_requests_for_agent]:
    one examined message, one summary. *)
Definition process_message (freigent : RealJsonFreigent) (worker_id : string)
    (m : A2AMessage) : M pydict :=
  let pl := py_or_empty (payload m) in
  let msg_type := py_get pl "type" VNone in
  if negb (py_is_str msg_type "recommendation_request") then
    ret (processed_ignored m (unsupported_type_text msg_type))
  else
    let from_agent := from_agent_id m in
    let query := py_get pl "query" (VStr "") in
    let profile_user_id := py_get pl "from_user_id" (VStr from_agent) in
    profile <~ load_profile profile_user_id ;;
    match profile with
    | None =>
        let error_text := missing_profile_text profile_user_id in
        _ <~ hub_send_message worker_id from_agent (error_payload m error_text) ;;
        ret (processed_error m error_text)
    | Some profile =>
        result <~ generate_recommendations_json freigent profile query ;;
        _ <~ hub_send_message worker_id from_agent
               (reply_payload m query profile_user_id result) ;;
        ret (processed_ok m from_agent)
    end.

(** [for m in ...: ... processed.append(...)] *)
Fixpoint process_messages (freigent : RealJsonFreigent) (worker_id : string)
    (ms : list A2AMessage) (processed : list pydict) : M (list pydict) :=
  match ms with
  | [] => ret processed
  | m :: ms' =>
      out <~ process_message freigent worker_id m ;;
      process_messages freigent worker_id ms' (processed ++ [out])
  end.

Definition process_recommendation_requests_for_agent
    (worker_id : string) (max_messages : Z) : M (list pydict) :=
  freigent <~ get_or_create_freigent worker_id ;;
  msgs <~ hub_get_inbox worker_id true ;;
  process_messages freigent worker_id (py_slice_to msgs max_messages) [].

(** *** The orchestrator *)

(** [for hid in helper_ids: prof = db_load_profile(hid); if prof: register] *)
Fixpoint register_helpers (helper_ids : list string) : M unit :=
  match helper_ids with
  | [] => ret tt
  | hid :: rest =>
      prof <~ load_profile (VStr hid) ;;
      _ <~ match prof with
           | Some prof =>
               _ <~ hub_register_agent hid "freigent"
                      (prof_name prof) (prof_personality prof) ;;
               ret tt
           | None => ret tt
           end ;;
      register_helpers rest
  end.

(** [for helper_id in helper_ids: hub.send_message(...)] *)
Fixpoint send_requests (user_id query : string) (helper_ids : list string) : M unit :=
  match helper_ids with
  | [] => ret tt
  | helper_id :: rest =>
      _ <~ hub_send_message user_id helper_id (request_payload user_id query) ;;
      send_requests user_id query rest
  end.

(** [for helper_id in helper_ids: process_...(helper_id, max_messages=10)] *)
Fixpoint dispatch_helpers (helper_ids : list string) : M unit :=
  match helper_ids with
  | [] => ret tt
  | helper_id :: rest =>
      _ <~ process_recommendation_requests_for_agent helper_id 10 ;;
      dispatch_helpers rest
  end.

(** [for msg in incoming: ...] with its two accumulators. *)
Fixpoint fan_in (incoming : list A2AMessage)
    (helper_results : list HelperResult) (merged_products : list pyval)
    : M (list HelperResult * list pyval) :=
  match incoming with
  | [] => ret (helper_results, merged_products)
  | msg :: rest =>
      let pl := py_or_empty (payload msg) in
      let p_type := py_get pl "type" VNone in
      if negb (py_is_str p_type "recommendation_response") then
        fan_in rest helper_results merged_products
      else
        let from_agent := from_agent_id msg in
        let result := py_get pl "result" (VDict []) in
        match as_dict result with
        | None => raise ValidationError
        | Some r =>
            let helper_results' :=
              helper_results ++ [{| hr_agent_id := from_agent; hr_result := r |}] in
            products <~ py_method_get result "products" (VList []) ;;
            fan_in rest helper_results' (extend_if_list merged_products products)
        end
  end.

Definition merged_summary (user_id : string) (helper_count : nat)
    (helper_ids : list string) : string :=
  "This response combines the base Freigent '" +:+ user_id +:+ "' recommendations "
  +:+ "with " +:+ pretty helper_count +:+ " helper Freigent(s): "
  +:+ (match helper_ids with [] => "none" | _ => py_join ", " helper_ids end)
  +:+ ".".

Definition profile_not_found (user_id : string) : exn :=
  HTTPException 400
    ("No profile stored for user_id '" +:+ user_id +:+ "'. "
     +:+ "Call POST /freigent/" +:+ user_id +:+ "/profile first.").

Definition freigent_auto_search (user_id query : string) : M AutoSearchResponse :=
  profile <~ load_profile (VStr user_id) ;;
  match profile with
  | None => raise (profile_not_found user_id)
  | Some profile =>
      base_freigent <~ get_or_create_freigent user_id ;;
      base_result <~ generate_recommendations_json base_freigent profile (VStr query) ;;
      helper_ids <~ list_helper_agent_ids user_id ;;
      _ <~ register_helpers helper_ids ;;
      _ <~ send_requests user_id query helper_ids ;;
      _ <~ dispatch_helpers helper_ids ;;
      incoming <~ hub_get_inbox user_id true ;;
      base_products <~ py_method_get base_result "products" (VList []) ;;
      acc <~ fan_in incoming [] (extend_if_list [] base_products) ;;
      let helper_count := length acc.1 in
      let summary := merged_summary user_id helper_count helper_ids in
      match as_dict base_result, as_dict_list acc.2 with
      | Some base, Some merged =>
          ret {| base_agent_id := user_id;
                 helper_agent_ids := helper_ids;
                 base_result := base;
                 helper_results := acc.1;
                 merged_products := merged;
                 merged_summary_for_user := summary |}
      | _, _ => raise ValidationError
      end
  end.

End Program.

(** ** Concrete data for the examples

    One deterministic outside world, a database with three stored
    Freigents and a few hub states. *)

Definition demo_ext : Externals := {|
  uuid4 := λ n, "uuid-" +:+ pretty n;
  anthropic := λ n model prof q,
    LlmParsed (VDict [("products",
                       VList [VDict [("name", VStr ("gift for " +:+ prof_name prof))]])]);
  py_repr := λ _, "<container>";
  type_error_text := λ _, "TypeError"
|}.

Definition demo_agent (aid dname : string) : AgentRow :=
  {| a_agent_id := aid; a_agent_type := "freigent";
     a_display_name := dname; a_personality_summary := "" |}.

Definition demo_profile (uid pname : string) : ProfileRow :=
  {| p_user_id := uid; p_name := pname; p_personality := "calm";
     p_values_text := "quality" |}.

Definition demo_db : Database := {|
  tbl_agents := [demo_agent "u1" "Ada"; demo_agent "u2" "Bob"; demo_agent "u3" "Cy"];
  tbl_profiles := [demo_profile "u1" "Ada"; demo_profile "u2" "Bob";
                   demo_profile "u3" "Cy"];
  tbl_experiences :=
    [{| e_user_id := "u1"; e_name := "kettle"; e_notes := "fast"; e_rating := 5 |}]
|}.

(** Only the base user is stored: discovery finds no peer. *)
Definition solo_db : Database := {|
  tbl_agents := [demo_agent "u1" "Ada"];
  tbl_profiles := [demo_profile "u1" "Ada"];
  tbl_experiences := []
|}.

Definition demo_message (mid from to : string) (pl : pydict) : A2AMessage :=
  {| message_id := mid; from_agent_id := from; to_agent_id := to; payload := pl |}.

Definition hub_with (aid : string) (msgs : list A2AMessage) : NandaHub :=
  {| agents := ∅; inboxes := {[ aid := msgs ]} |}.

Definition demo_world (d : Database) (h : NandaHub) : World := {|
  environ := {[ "ANTHROPIC_API_KEY" := "sk-test" ]};
  db := d;
  FREIGENTS := ∅;
  hub := h;
  uuid_calls := 0;
  llm_calls := 0;
  trace := []
|}.

Definition demo_request (mid from to : string) : A2AMessage :=
  demo_message mid from to
    [("type", VStr "recommendation_request"); ("query", VStr "tea")].

Definition demo_note (mid from to : string) : A2AMessage :=
  demo_message mid from to [("type", VStr "note")].

(** A response left in a mailbox by an earlier exchange. *)
Definition stale_response : A2AMessage :=
  demo_message "m-old" "u9" "u1"
    [("type", VStr "recommendation_response");
     ("result", VDict [("products", VList [VDict [("name", VStr "old offer")]])])].

Definition demo_calls : list hub_call :=
  [CallSend "id-1" "u1" "u2" [("n", VInt 1)];
   CallRegister "u2" "freigent" "Bob" "calm";
   CallSend "id-2" "u3" "u1" [("n", VInt 2)];
   CallGetInbox "u1" true;
   CallGetInbox "u2" false;
   CallSend "id-3" "u3" "u2" [("n", VInt 3)]].

(** The profile [db_load_profile] builds for ["u1"] from [demo_db]. *)
Definition ada : Profile := {|
  prof_name := "Ada";
  prof_personality := "calm";
  prof_values := "quality";
  prof_experiences := [{| exp_name := "kettle"; exp_notes := "fast"; exp_rating := 5 |}]
|}.


(** ["u2"] has one request from ["u1"] between two notes. *)
Definition busy_world : World :=
  demo_world demo_db
    (hub_with "u2" [demo_note "n-1" "u3" "u2"; demo_request "m-1" "u1" "u2";
                    demo_note "n-2" "u3" "u2"]).

(** ["u2"] has ten notes ahead of one request from ["u1"]. *)
Definition crowded_world : World :=
  demo_world demo_db
    (hub_with "u2"
       (map (λ n, demo_note ("n-" +:+ pretty n) "u3" "u2") (seq 1 10)
        ++ [demo_request "m-1" "u1" "u2"])).


(** ["u2"] has a request that names ["u2"] itself as its sender. *)
Definition self_world : World :=
  demo_world demo_db (hub_with "u2" [demo_request "m-1" "u2" "u2"]).

(** ["u2"] has three notes. *)
Definition notes_world : World :=
  demo_world demo_db
    (hub_with "u2" [demo_note "n-1" "u3" "u2"; demo_note "n-2" "u3" "u2";
                    demo_note "n-3" "u3" "u2"]).

(** Three stored Freigents, an empty hub. *)
Definition fresh_world : World := demo_world demo_db NandaHub_init.

(** Only ["u1"] is stored, and an old response waits in its mailbox. *)
Definition stale_world : World :=
  demo_world solo_db (hub_with "u1" [stale_response]).

(** Only ["u1"] is stored, and its mailbox holds a note. *)
Definition quiet_world : World :=
  demo_world solo_db (hub_with "u1" [demo_note "n-1" "u9" "u1"]).

(** ** The rest of the server: database writes and the other endpoints *)

(** [INSERT ... ON CONFLICT(key) DO UPDATE]: the row that has the key is
    replaced where it stands, a new key is appended. *)
Fixpoint upsert_row {A} (same : A → bool) (row : A) (rows : list A) : list A :=
  match rows with
  | [] => [row]
  | r :: rows' => if same r then row :: rows' else r :: upsert_row same row rows'
  end.

(** A Python int that fits an SQLite INTEGER. *)
Definition sqlite_int (z : Z) : bool := bool_decide (- 2 ^ 63 ≤ z < 2 ^ 63).

Definition db_upsert_agent (d : Database) (aid atype dname psummary : string) : Database :=
  {| tbl_agents :=
       upsert_row (λ r, bool_decide (a_agent_id r = aid))
         {| a_agent_id := aid; a_agent_type := atype;
            a_display_name := dname; a_personality_summary := psummary |}
         (tbl_agents d);
     tbl_profiles := tbl_profiles d;
     tbl_experiences := tbl_experiences d |}.

(** [db_upsert_profile]: the profile row is upserted, the experiences of
    the user are deleted and the new ones inserted, then everything is
    committed; an integer that SQLite cannot store raises before the
    commit, and nothing is written. *)
Definition db_upsert_profile (d : Database) (user_id : string)
    (profile_dict : Profile) : result Database :=
  let profiles' :=
    upsert_row (λ r, bool_decide (p_user_id r = user_id))
      {| p_user_id := user_id; p_name := prof_name profile_dict;
         p_personality := prof_personality profile_dict;
         p_values_text := prof_values profile_dict |}
      (tbl_profiles d) in
  let kept := filter (λ e, e_user_id e ≠ user_id) (tbl_experiences d) in
  let inserted :=
    map (λ exp, {| e_user_id := user_id; e_name := exp_name exp;
                   e_notes := exp_notes exp; e_rating := exp_rating exp |})
        (prof_experiences profile_dict) in
  if forallb (λ exp, sqlite_int (exp_rating exp)) (prof_experiences profile_dict)
  then Ok {| tbl_agents := tbl_agents d; tbl_profiles := profiles';
             tbl_experiences := kept ++ inserted |}
  else Raise OverflowError.

Definition set_db (d : Database) (w : World) : World :=
  {| environ := environ w; db := d; FREIGENTS := FREIGENTS w; hub := hub w;
     uuid_calls := uuid_calls w; llm_calls := llm_calls w; trace := trace w |}.

Definition upsert_agent (aid atype dname psummary : string) : M unit :=
  λ w, (Ok tt, set_db (db_upsert_agent (db w) aid atype dname psummary) w).

Definition upsert_profile (user_id : string) (profile_dict : Profile) : M unit :=
  λ w, match db_upsert_profile (db w) user_id profile_dict with
       | Ok d' => (Ok tt, set_db d' w)
       | Raise e => (Raise e, w)
       end.

(** [POST /freigent/{user_id}/profile] *)
Definition freigent_set_profile (user_id : string) (profile : Profile) : M pydict :=
  _ <~ upsert_profile user_id profile ;;
  _ <~ get_or_create_freigent user_id ;;
  _ <~ upsert_agent user_id "freigent" (prof_name profile) (prof_personality profile) ;;
  _ <~ hub_register_agent user_id "freigent"
         (prof_name profile) (prof_personality profile) ;;
  ret [("status", VStr "ok"); ("user_id", VStr user_id)].

(** [A2AMessageModel] as the endpoints return it. *)
Definition message_dict (m : A2AMessage) : pydict :=
  [("message_id", VStr (message_id m));
   ("from_agent_id", VStr (from_agent_id m));
   ("to_agent_id", VStr (to_agent_id m));
   ("payload", VDict (payload m))].

(** [GET /nanda/a2a/inbox/{agent_id}] *)
Definition nanda_a2a_inbox (aid : string) : M (list pydict) :=
  msgs <~ hub_get_inbox aid true ;;
  ret (map message_dict msgs).

Section Endpoints.
Context (ext : Externals).

(** [POST /freigent/{user_id}/search] *)
Definition freigent_search (user_id query : string) : M pyval :=
  profile <~ load_profile (VStr user_id) ;;
  match profile with
  | None => raise (profile_not_found user_id)
  | Some profile =>
      freigent <~ get_or_create_freigent user_id ;;
      generate_recommendations_json ext freigent profile (VStr query)
  end.

(** [POST /nanda/a2a/send] *)
Definition nanda_a2a_send (from to : string) (pl : pydict) : M pydict :=
  msg <~ hub_send_message ext from to pl ;;
  ret (message_dict msg).

(** What a helper's answer must be to count for the base user. *)
Definition answer_for (profile : Profile) (query : string)
    (hid : string) (r : A2AMessage) : Prop :=
  from_agent_id r = hid ∧ is_response r = true ∧
  ∃ n fr, response_result r = llm_result ext n fr profile (VStr query).

End Endpoints.

(** The PRIMARY KEY constraints of [agents] and [profiles]. *)
Definition db_keys_unique (d : Database) : Prop :=
  NoDup (map a_agent_id (tbl_agents d)) ∧ NoDup (map p_user_id (tbl_profiles d)).

(** Every rating of the profile fits an SQLite INTEGER. *)
Definition storable (profile : Profile) : Prop :=
  Forall (λ exp, - 2 ^ 63 ≤ exp_rating exp < 2 ^ 63) (prof_experiences profile).

(** [os.getenv("ANTHROPIC_API_KEY")] is [None] or empty. *)
Definition api_key_missing (w : World) : Prop :=
  environ w !! "ANTHROPIC_API_KEY" = None ∨ environ w !! "ANTHROPIC_API_KEY" = Some "".

Definition missing_api_key : exn :=
  ValueError "ANTHROPIC_API_KEY is not set in environment/.env".

(** *** More concrete data *)

(** The process was started without an API key. *)
Definition no_key_world : World := {|
  environ := ∅;
  db := demo_db;
  FREIGENTS := ∅;
  hub := hub_with "u2" [demo_request "m-1" "u1" "u2"];
  uuid_calls := 0;
  llm_calls := 0;
  trace := []
|}.

(** A request whose [from_user_id] is a JSON list. *)
Definition odd_request : A2AMessage :=
  demo_message "m-1" "u1" "u2"
    [("type", VStr "recommendation_request");
     ("from_user_id", VList [VStr "u1"]);
     ("query", VStr "tea")].

(** ["u2"] has a note and a request that can be answered ahead of the
    odd request, and one more request behind it. *)
Definition odd_world : World :=
  demo_world demo_db
    (hub_with "u2" [demo_note "n-1" "u3" "u2"; demo_request "m-0" "u1" "u2";
                    odd_request; demo_request "m-2" "u3" "u2"]).

(** A new user and her profile. *)
Definition dee : Profile := {|
  prof_name := "Dee";
  prof_personality := "curious";
  prof_values := "price";
  prof_experiences :=
    [{| exp_name := "lamp"; exp_notes := "dim"; exp_rating := 2 |};
     {| exp_name := "desk"; exp_notes := "solid"; exp_rating := 4 |}]
|}.

(** * Properties *)

(** ** Running computations *)

Lemma bind_Ok {A B} (m : M A) (k : A → M B) w a w1 :
  m w = (Ok a, w1) → bind m k w = k a w1.
Proof. intros H. unfold bind. by rewrite H. Qed.

Lemma bind_Raise {A B} (m : M A) (k : A → M B) w e w1 :
  m w = (Raise e, w1) → bind m k w = (Raise e, w1).
Proof. intros H. unfold bind. by rewrite H. Qed.

Lemma bind_Ok_inv {A B} (m : M A) (k : A → M B) w b w' :
  bind m k w = (Ok b, w') →
  ∃ a w1, m w = (Ok a, w1) ∧ k a w1 = (Ok b, w').
Proof.
  unfold bind. destruct (m w) as [[a|e] w1]; [eauto|discriminate].
Qed.

Tactic Notation "bind_inv" hyp(H) "as" ident(a) ident(w1) ident(H1) :=
  apply bind_Ok_inv in H as (a & w1 & H1 & H).

(** ** Mailbox store: basic facts *)

Lemma inbox_of_send_eq h uuid from to pl :
  inbox_of (send_message h uuid from to pl).2 to
  = inbox_of h to ++ [(send_message h uuid from to pl).1].
Proof.
  unfold inbox_of, send_message; simpl.
  rewrite lookup_insert_eq; simpl.
  destruct (inboxes h !! to) eqn:E; simpl.
  - by rewrite E.
  - by rewrite lookup_insert_eq.
Qed.

Lemma inbox_of_send_ne h uuid from to pl aid :
  to ≠ aid →
  inbox_of (send_message h uuid from to pl).2 aid = inbox_of h aid.
Proof.
  intros Hne. unfold inbox_of, send_message; simpl.
  rewrite lookup_insert_ne by done.
  destruct (inboxes h !! to); [done|].
  by rewrite lookup_insert_ne.
Qed.

Lemma inbox_of_register h aid atype dname psummary a :
  inbox_of (register_agent h aid atype dname psummary).2 a = inbox_of h a.
Proof.
  unfold inbox_of, register_agent; simpl.
  destruct (inboxes h !! aid) eqn:E; [done|].
  destruct (decide (aid = a)) as [->|Hne].
  - by rewrite lookup_insert_eq, E.
  - by rewrite lookup_insert_ne.
Qed.

Lemma inbox_of_get_inbox_eq h aid :
  inbox_of (get_inbox h aid true).2 aid = [].
Proof. unfold inbox_of, get_inbox; simpl. by rewrite lookup_insert_eq. Qed.

Lemma inbox_of_get_inbox_ne h aid clear a :
  aid ≠ a → inbox_of (get_inbox h aid clear).2 a = inbox_of h a.
Proof.
  intros Hne. unfold inbox_of, get_inbox.
  destruct clear; simpl; [|done]. by rewrite lookup_insert_ne.
Qed.

Lemma get_inbox_fst h aid clear : (get_inbox h aid clear).1 = inbox_of h aid.
Proof. unfold get_inbox. by destruct clear. Qed.

Lemma run_call_inbox aid c h :
  ¬ drains aid c →
  inbox_of (run_call c h).2 aid
  = inbox_of h aid ++ addressed_to aid (sent_by (run_call c h).1).
Proof.
  intros Hc. unfold addressed_to.
  destruct c as [a1 a2 a3 a4|uuid from to pl|a1 clear]; unfold run_call.
  - cbn [fst snd sent_by from_option]. rewrite inbox_of_register.
    by rewrite filter_nil, app_nil_r.
  - destruct (decide (to = aid)) as [->|Hne].
    + pose proof (inbox_of_send_eq h uuid from aid pl) as Hs.
      destruct (send_message h uuid from aid pl) as [m h'] eqn:Es.
      cbn [fst snd sent_by from_option] in *.
      assert (Hm : to_agent_id m = aid).
      { unfold send_message in Es. by inversion Es. }
      by rewrite filter_cons_True, filter_nil.
    + pose proof (inbox_of_send_ne h uuid from to pl aid Hne) as Hs.
      destruct (send_message h uuid from to pl) as [m h'] eqn:Es.
      cbn [fst snd sent_by from_option] in *.
      assert (Hm : to_agent_id m = to).
      { unfold send_message in Es. by inversion Es. }
      rewrite filter_cons_False, filter_nil by (rewrite Hm; done).
      by rewrite app_nil_r.
  - cbn [fst snd sent_by from_option]. rewrite filter_nil, app_nil_r.
    destruct (decide (a1 = aid)) as [->|Hne].
    + destruct clear; [by destruct Hc|done].
    + by apply inbox_of_get_inbox_ne.
Qed.

(** Without a drain of [aid], a run of calls appends to [aid]'s mailbox
    exactly the messages sent to it, in send order. *)
Lemma run_calls_inbox aid cs : ∀ h,
  Forall (λ c, ¬ drains aid c) cs →
  inbox_of (run_calls cs h).2 aid
  = inbox_of h aid ++ addressed_to aid (run_calls cs h).1.
Proof.
  induction cs as [|c cs IH]; intros h Hnd; cbn [run_calls].
  - cbn. by rewrite app_nil_r.
  - inversion Hnd as [|? ? Hc Hcs]; subst.
    pose proof (run_call_inbox aid c h Hc) as H1.
    destruct (run_call c h) as [om h1].
    specialize (IH h1 Hcs).
    destruct (run_calls cs h1) as [ms h2].
    cbn [fst snd] in *. fold (sent_by om).
    unfold addressed_to in *.
    by rewrite IH, H1, filter_app, app_assoc.
Qed.

(** C1. Starting from an empty (or absent) mailbox for [aid], after any
    sequence of hub calls that contains no drain of [aid],
    [get_inbox(aid, clear=True)] returns exactly the messages that were
    sent to [aid], in send order, and the [get_inbox] that follows
    immediately returns the empty list, whatever its [clear] flag. *)
Theorem get_inbox_returns_sends_in_order (h : NandaHub) (aid : string)
    (cs : list hub_call) (clear' : bool) :
  inbox_of h aid = [] →
  Forall (λ c, ¬ drains aid c) cs →
  let '(sent, h1) := run_calls cs h in
  let '(got, h2) := get_inbox h1 aid true in
  got = addressed_to aid sent ∧ (get_inbox h2 aid clear').1 = [].
Proof.
  intros Hempty Hnd.
  pose proof (run_calls_inbox aid cs h Hnd) as Hrun.
  destruct (run_calls cs h) as [sent h1]; simpl in Hrun.
  destruct (get_inbox h1 aid true) as [got h2] eqn:Eg.
  pose proof (get_inbox_fst h1 aid true) as Hfst.
  pose proof (inbox_of_get_inbox_eq h1 aid) as Hafter.
  rewrite Eg in Hfst, Hafter; simpl in Hfst, Hafter.
  split.
  - by rewrite Hfst, Hrun, Hempty.
  - by rewrite get_inbox_fst.
Qed.

Lemma get_inbox_returns_sends_in_order_witness :
  let '(sent, h1) := run_calls demo_calls NandaHub_init in
  let '(got, h2) := get_inbox h1 "u2" true in
  got = addressed_to "u2" sent ∧ (get_inbox h2 "u2" false).1 = [].
Proof.
  apply (get_inbox_returns_sends_in_order NandaHub_init "u2" demo_calls false).
  - reflexivity.
  - unfold demo_calls. repeat constructor; simpl; try tauto; discriminate.
Defined.

(** C10. For an agent id with no mailbox entry, [get_inbox(aid, clear=True)]
    returns the empty list and leaves an empty mailbox entry for [aid] in
    the store (the rest of the store is as before, and a later read still
    finds the entry), whereas [get_inbox(aid, clear=False)] returns the
    empty list and leaves the store exactly as it was. *)
Theorem get_inbox_unknown_agent (h : NandaHub) (aid : string) :
  inboxes h !! aid = None →
  let '(got, h1) := get_inbox h aid true in
  got = [] ∧
  agents h1 = agents h ∧
  inboxes h1 = <[aid := []]> (inboxes h) ∧
  inboxes h1 !! aid = Some [] ∧
  inboxes h1 ≠ inboxes h ∧
  inboxes (get_inbox h1 aid false).2 !! aid = Some [] ∧
  get_inbox h aid false = ([], h).
Proof.
  intros Hnone. unfold get_inbox, inbox_of. rewrite Hnone. simpl.
  repeat split; try done.
  - by rewrite lookup_insert_eq.
  - intros Heq. rewrite <- Heq in Hnone. by rewrite lookup_insert_eq in Hnone.
  - by rewrite lookup_insert_eq.
Qed.

Lemma get_inbox_unknown_agent_witness :
  let '(got, h1) := get_inbox (hub_with "u1" []) "u7" true in
  got = [] ∧
  agents h1 = agents (hub_with "u1" []) ∧
  inboxes h1 = <["u7" := []]> (inboxes (hub_with "u1" [])) ∧
  inboxes h1 !! "u7" = Some [] ∧
  inboxes h1 ≠ inboxes (hub_with "u1" []) ∧
  inboxes (get_inbox h1 "u7" false).2 !! "u7" = Some [] ∧
  get_inbox (hub_with "u1" []) "u7" false = ([], hub_with "u1" []).
Proof.
  apply (get_inbox_unknown_agent (hub_with "u1" []) "u7").
  reflexivity.
Defined.

(** ** The worker *)

Section Worker.
Context (ext : Externals).

#[local] Arguments send_message : simpl never.
#[local] Arguments get_inbox : simpl never.
#[local] Arguments register_agent : simpl never.
#[local] Arguments inbox_of : simpl never.

Lemma send_message_fst h uuid from to pl :
  (send_message h uuid from to pl).1
  = {| message_id := uuid; from_agent_id := from; to_agent_id := to; payload := pl |}.
Proof. reflexivity. Qed.

Lemma sends_of_app evs1 evs2 : sends_of (evs1 ++ evs2) = sends_of evs1 ++ sends_of evs2.
Proof. unfold sends_of. apply omap_app. Qed.

Lemma peer_ops_app evs1 evs2 : peer_ops (evs1 ++ evs2) = peer_ops evs1 ++ peer_ops evs2.
Proof. unfold peer_ops. apply omap_app. Qed.

Lemma addressed_to_app aid ms1 ms2 :
  addressed_to aid (ms1 ++ ms2) = addressed_to aid ms1 ++ addressed_to aid ms2.
Proof. unfold addressed_to. apply filter_app. Qed.

(** What sending one message does to the world. *)
Lemma hub_send_message_effect from to pl w :
  ∃ w', hub_send_message ext from to pl w = (Ok (new_message ext w from to pl), w') ∧
    trace w' = trace w ++ [EvSend (new_message ext w from to pl)] ∧
    db w' = db w ∧ llm_calls w' = llm_calls w ∧
    hub w' = (send_message (hub w) (uuid4 ext (uuid_calls w)) from to pl).2 ∧
    (∀ aid, inbox_of (hub w') aid
            = inbox_of (hub w) aid ++ addressed_to aid [new_message ext w from to pl]).
Proof.
  eexists. split; [reflexivity|].
  cbn [trace db llm_calls hub log set_hub tick_uuid fst snd]. repeat split.
  intros aid. unfold addressed_to. destruct (decide (to = aid)) as [->|Hne].
  - rewrite filter_cons_True, filter_nil by done.
    by rewrite inbox_of_send_eq, send_message_fst.
  - rewrite filter_cons_False, filter_nil by done.
    rewrite inbox_of_send_ne by done. by rewrite app_nil_r.
Qed.

Lemma hub_get_inbox_effect aid clear w :
  ∃ w', hub_get_inbox aid clear w = (Ok (inbox_of (hub w) aid), w') ∧
    trace w' = trace w ++ [EvGetInbox aid clear (inbox_of (hub w) aid)] ∧
    db w' = db w ∧ llm_calls w' = llm_calls w ∧ uuid_calls w' = uuid_calls w ∧
    hub w' = (get_inbox (hub w) aid clear).2.
Proof.
  eexists. split.
  - unfold hub_get_inbox. cbv zeta. rewrite get_inbox_fst. reflexivity.
  - by repeat split.
Qed.

Lemma get_or_create_freigent_effect user_id w r w' :
  get_or_create_freigent user_id w = (r, w') →
  hub w' = hub w ∧ trace w' = trace w ∧ db w' = db w ∧ environ w' = environ w ∧
  llm_calls w' = llm_calls w ∧ uuid_calls w' = uuid_calls w.
Proof.
  unfold get_or_create_freigent, RealJsonFreigent_init.
  destruct (FREIGENTS w !! user_id).
  - by intros [= <- <-].
  - destruct (environ w !! "ANTHROPIC_API_KEY") as [key|].
    + destruct (decide (key = "")); by intros [= <- <-].
    + by intros [= <- <-].
Qed.

(** *** One examined message *)

Lemma process_message_ignored fr worker m w :
  is_request m = false →
  process_message ext fr worker m w
  = (Ok (ignored_summary ext m), w).
Proof.
  intros Hreq. unfold process_message.
  change (py_is_str _ "recommendation_request") with (is_request m).
  by rewrite Hreq.
Qed.

Lemma process_message_db_error fr worker m w e :
  is_request m = true →
  db_load_profile (db w) (resolved_profile_id m) = Raise e →
  process_message ext fr worker m w
  = (Raise e, log (EvDbLoadProfile (resolved_profile_id m)) w).
Proof.
  intros Hreq Hload. unfold process_message.
  change (py_is_str _ "recommendation_request") with (is_request m).
  rewrite Hreq. cbn [negb]. unfold bind, load_profile.
  fold (resolved_profile_id m). by rewrite Hload.
Qed.

Lemma process_message_missing fr worker m w :
  is_request m = true →
  db_load_profile (db w) (resolved_profile_id m) = Ok None →
  let error_text := missing_profile_text ext (resolved_profile_id m) in
  process_message ext fr worker m w
  = (Ok (processed_error m error_text),
     (hub_send_message ext worker (from_agent_id m) (error_payload m error_text)
        (log (EvDbLoadProfile (resolved_profile_id m)) w)).2).
Proof.
  intros Hreq Hload. unfold process_message.
  change (py_is_str _ "recommendation_request") with (is_request m).
  rewrite Hreq. cbn [negb]. unfold bind, load_profile.
  fold (resolved_profile_id m). by rewrite Hload.
Qed.

Lemma process_message_found fr worker m w prof :
  is_request m = true →
  db_load_profile (db w) (resolved_profile_id m) = Ok (Some prof) →
  let pid := resolved_profile_id m in
  let result := llm_result ext (llm_calls w) fr prof (request_query m) in
  process_message ext fr worker m w
  = (Ok (processed_ok m (from_agent_id m)),
     (hub_send_message ext worker (from_agent_id m)
        (reply_payload m (request_query m) pid result)
        (log (EvGenerate (rjf_agent_id fr) prof (request_query m))
           (tick_llm (log (EvDbLoadProfile pid) w)))).2).
Proof.
  intros Hreq Hload. unfold process_message.
  change (py_is_str _ "recommendation_request") with (is_request m).
  rewrite Hreq. cbn [negb]. unfold bind, load_profile.
  fold (resolved_profile_id m). by rewrite Hload.
Qed.

(** Whatever became of it, one examined message only adds events, drains
    nothing, requests nothing, and appends to the mailboxes the messages it
    sent; when it is summarised, the summary names it and a request got
    exactly one answer. *)
Lemma process_message_effect fr worker m w r w' :
  process_message ext fr worker m w = (r, w') →
  ∃ evs, trace w' = trace w ++ evs ∧ peer_ops evs = [] ∧ db w' = db w ∧
    (∀ aid, inbox_of (hub w') aid
            = inbox_of (hub w) aid ++ addressed_to aid (sends_of evs)) ∧
    match r with
    | Ok out =>
        request_message_id out = Some (VStr (message_id m)) ∧
        Forall2 (answers worker)
          (if is_request m then [m] else []) (sends_of evs)
    | Raise _ => True
    end.
Proof.
  destruct (is_request m) eqn:Hreq.
  - destruct (db_load_profile (db w) (resolved_profile_id m)) as [[prof|]|e] eqn:Hload.
    + rewrite (process_message_found fr worker m w prof Hreq Hload).
      match goal with
      | |- context [hub_send_message ext ?f ?t ?pl ?w1] =>
          destruct (hub_send_message_effect f t pl w1)
            as (w2 & Heq & Htr & Hdb & _ & _ & Hin)
      end.
      rewrite Heq. cbn [snd]. intros [= <- <-].
      eexists [_; _; _]. split; [|split; [|split; [|split; [|split]]]].
      * rewrite Htr. cbn [trace log tick_llm]. by rewrite <- !app_assoc.
      * reflexivity.
      * by rewrite Hdb.
      * intros aid. by rewrite Hin.
      * reflexivity.
      * constructor; [|constructor]. by repeat split.
    + rewrite (process_message_missing fr worker m w Hreq Hload).
      match goal with
      | |- context [hub_send_message ext ?f ?t ?pl ?w1] =>
          destruct (hub_send_message_effect f t pl w1)
            as (w2 & Heq & Htr & Hdb & _ & _ & Hin)
      end.
      rewrite Heq. cbn [snd]. intros [= <- <-].
      eexists [_; _]. split; [|split; [|split; [|split; [|split]]]].
      * rewrite Htr. cbn [trace log]. by rewrite <- !app_assoc.
      * reflexivity.
      * by rewrite Hdb.
      * intros aid. by rewrite Hin.
      * reflexivity.
      * constructor; [|constructor]. by repeat split.
    + rewrite (process_message_db_error fr worker m w e Hreq Hload).
      intros [= <- <-]. exists [EvDbLoadProfile (resolved_profile_id m)].
      repeat split. intros aid. cbn. by rewrite app_nil_r.
  - rewrite (process_message_ignored fr worker m w Hreq).
    intros [= <- <-]. exists []. rewrite app_nil_r. repeat split.
    + intros aid. cbn. by rewrite app_nil_r.
    + constructor.
Qed.

(** *** The loop over the examined messages *)

Lemma process_messages_effect fr worker ms : ∀ acc w r w',
  process_messages ext fr worker ms acc w = (r, w') →
  ∃ evs, trace w' = trace w ++ evs ∧ peer_ops evs = [] ∧ db w' = db w ∧
    (∀ aid, inbox_of (hub w') aid
            = inbox_of (hub w) aid ++ addressed_to aid (sends_of evs)) ∧
    match r with
    | Ok outs =>
        ∃ outs', outs = acc ++ outs' ∧
          map request_message_id outs' = map (λ m, Some (VStr (message_id m))) ms ∧
          Forall2 (answers worker) (filter (λ m, is_request m) ms) (sends_of evs)
    | Raise _ => True
    end.
Proof.
  induction ms as [|m ms IH]; intros acc w r w' Hrun; cbn [process_messages] in Hrun.
  - injection Hrun as <- <-. exists []. rewrite app_nil_r. repeat split.
    + intros aid. cbn. by rewrite app_nil_r.
    + exists []. rewrite app_nil_r. repeat split. constructor.
  - unfold bind in Hrun.
    destruct (process_message ext fr worker m w) as [[out|e] w1] eqn:Hm.
    + apply process_message_effect in Hm as (evs1 & Htr1 & Hops1 & Hdb1 & Hin1 & Hid & Hans1).
      apply IH in Hrun as (evs2 & Htr2 & Hops2 & Hdb2 & Hin2 & Hr).
      exists (evs1 ++ evs2). split; [|split; [|split; [|split]]].
      * by rewrite Htr2, Htr1, app_assoc.
      * by rewrite peer_ops_app, Hops1, Hops2.
      * by rewrite Hdb2.
      * intros aid. by rewrite Hin2, Hin1, sends_of_app, addressed_to_app, app_assoc.
      * destruct r as [outs|]; [|done].
        destruct Hr as (outs' & -> & Hids & Hans2).
        exists (out :: outs'). split; [|split].
        -- by rewrite <- app_assoc.
        -- cbn [map]. by rewrite Hid, Hids.
        -- rewrite sends_of_app. destruct (is_request m) eqn:Hreq.
           ++ rewrite filter_cons_True by (by rewrite Hreq).
              change (m :: filter (λ m0, is_request m0) ms)
                with ([m] ++ filter (λ m0, is_request m0) ms).
              by apply Forall2_app.
           ++ rewrite filter_cons_False by (rewrite Hreq; exact id).
              apply Forall2_nil_inv_l in Hans1. by rewrite Hans1.
    + injection Hrun as <- <-.
      apply process_message_effect in Hm as (evs1 & Htr1 & Hops1 & Hdb1 & Hin1 & _).
      exists evs1. by repeat split.
Qed.

(** Messages that are not requests are summarised without any effect. *)
Lemma process_messages_ignored fr worker ms : ∀ acc w,
  Forall (λ m, is_request m = false) ms →
  process_messages ext fr worker ms acc w
  = (Ok (acc ++ map (ignored_summary ext) ms), w).
Proof.
  induction ms as [|m ms IH]; intros acc w Hall; cbn [process_messages map].
  - by rewrite app_nil_r.
  - inversion Hall as [|? ? Hm Hms]; subst.
    rewrite (bind_Ok _ _ _ _ _ (process_message_ignored fr worker m w Hm)).
    rewrite IH by done. by rewrite <- app_assoc.
Qed.

Lemma process_messages_app fr worker ms1 ms2 : ∀ acc w,
  process_messages ext fr worker (ms1 ++ ms2) acc w
  = bind (process_messages ext fr worker ms1 acc)
         (λ acc1, process_messages ext fr worker ms2 acc1) w.
Proof.
  induction ms1 as [|m ms1 IH]; intros acc w; cbn [process_messages app].
  - reflexivity.
  - unfold bind at 1 3. unfold bind at 1.
    destruct (process_message ext fr worker m w) as [[out|e] w1]; [|done].
    rewrite IH. reflexivity.
Qed.

(** *** One call of the worker *)

Lemma worker_effect worker max w outs w' :
  process_recommendation_requests_for_agent ext worker max w = (Ok outs, w') →
  let msgs := inbox_of (hub w) worker in
  let examined := py_slice_to msgs max in
  ∃ evs, trace w' = trace w ++ EvGetInbox worker true msgs :: evs ∧
    peer_ops evs = [] ∧ db w' = db w ∧
    map request_message_id outs = map (λ m, Some (VStr (message_id m))) examined ∧
    Forall2 (answers worker) (filter (λ m, is_request m) examined) (sends_of evs) ∧
    inbox_of (hub w') worker = addressed_to worker (sends_of evs) ∧
    (∀ aid, aid ≠ worker →
       inbox_of (hub w') aid = inbox_of (hub w) aid ++ addressed_to aid (sends_of evs)).
Proof.
  intros Hrun msgs examined.
  unfold process_recommendation_requests_for_agent in Hrun.
  bind_inv Hrun as fr w0 Hm. bind_inv Hrun as msgs0 w1 Hm0.
  apply get_or_create_freigent_effect in Hm as (Hhub & Htr & Hdb & _).
  destruct (hub_get_inbox_effect worker true w0)
    as (w1' & Heq & Htr1 & Hdb1 & _ & _ & Hhub1).
  rewrite Heq in Hm0. injection Hm0 as <- <-.
  apply process_messages_effect in Hrun as (evs & Htr2 & Hops & Hdb2 & Hin & Hr).
  destruct Hr as (outs' & -> & Hids & Hans).
  rewrite Hhub in *. fold msgs in Htr1, Hids, Hans. fold examined in Hids, Hans.
  exists evs. split; [|split; [|split; [|split; [|split; [|split]]]]].
  - by rewrite Htr2, Htr1, Htr, <- app_assoc.
  - done.
  - by rewrite Hdb2, Hdb1.
  - done.
  - done.
  - by rewrite Hin, Hhub1, inbox_of_get_inbox_eq.
  - intros aid Hne. by rewrite Hin, Hhub1, inbox_of_get_inbox_ne.
Qed.

(** The worker returns whenever its client is available and the profile
    id of every examined request can be looked up. *)
Lemma process_message_returns fr worker m w :
  (is_request m = true →
   ∃ o, db_load_profile (db w) (resolved_profile_id m) = Ok o) →
  ∃ out w', process_message ext fr worker m w = (Ok out, w').
Proof.
  intros Hload. destruct (is_request m) eqn:Hreq.
  - destruct (Hload eq_refl) as [[prof|] Ho].
    + rewrite (process_message_found fr worker m w prof Hreq Ho). eauto.
    + rewrite (process_message_missing fr worker m w Hreq Ho). eauto.
  - rewrite (process_message_ignored fr worker m w Hreq). eauto.
Qed.

Lemma process_messages_returns fr worker ms : ∀ acc w,
  Forall (λ m, is_request m = true →
               ∃ o, db_load_profile (db w) (resolved_profile_id m) = Ok o) ms →
  ∃ outs w', process_messages ext fr worker ms acc w = (Ok outs, w').
Proof.
  induction ms as [|m ms IH]; intros acc w Hall; cbn [process_messages].
  - unfold ret. eauto.
  - inversion Hall as [|? ? Hm Hms]; subst.
    destruct (process_message_returns fr worker m w Hm) as (out & w1 & Hstep).
    rewrite (bind_Ok _ _ _ _ _ Hstep).
    apply process_message_effect in Hstep as (_ & _ & _ & Hdb & _).
    apply IH. rewrite Hdb. exact Hms.
Qed.

Lemma freigent_available_creates w user_id :
  freigent_available w user_id →
  ∃ fr w1, get_or_create_freigent user_id w = (Ok fr, w1).
Proof.
  unfold get_or_create_freigent, RealJsonFreigent_init.
  intros [[fr Hfr]|(key & Hkey & Hne)].
  - rewrite Hfr. eauto.
  - destruct (FREIGENTS w !! user_id); [eauto|].
    rewrite Hkey. destruct (decide (key = "")); [done|eauto].
Qed.

Lemma worker_returns worker max_messages w :
  freigent_available w worker →
  Forall (λ m, is_request m = true →
               ∃ o, db_load_profile (db w) (resolved_profile_id m) = Ok o)
    (py_slice_to (inbox_of (hub w) worker) max_messages) →
  ∃ outs w',
    process_recommendation_requests_for_agent ext worker max_messages w = (Ok outs, w').
Proof.
  intros Havail Hall.
  destruct (freigent_available_creates w worker Havail) as (fr & w1 & Hfr).
  destruct (get_or_create_freigent_effect _ _ _ _ Hfr) as (Hhub & _ & Hdb & _).
  destruct (hub_get_inbox_effect worker true w1) as (w2 & Heq2 & _ & Hdb2 & _).
  unfold process_recommendation_requests_for_agent.
  rewrite (bind_Ok _ _ _ _ _ Hfr), (bind_Ok _ _ _ _ _ Heq2).
  apply process_messages_returns. by rewrite Hdb2, Hdb, Hhub.
Qed.



(** A slice [l[:n]] is a prefix of [l], whatever the sign of [n]. *)
Lemma py_slice_to_prefix {A} (l : list A) (n : Z) :
  ∃ rest, l = py_slice_to l n ++ rest.
Proof.
  unfold py_slice_to. destruct (0 <=? n); eexists; symmetry; apply take_drop.
Qed.

Lemma filter_request_nil (ms : list A2AMessage) :
  filter (λ x, is_request x) ms = [] → Forall (λ x, is_request x = false) ms.
Proof.
  induction ms as [|x ms IH]; [constructor|].
  destruct (is_request x) eqn:Hx.
  - rewrite filter_cons_True by (by rewrite Hx). discriminate.
  - rewrite filter_cons_False by (rewrite Hx; exact id). by constructor; auto.
Qed.

(** When [m] is the only request of a mailbox and is among the examined
    messages, the examined messages around it are not requests. *)
Lemma only_request_examined (msgs pre post : list A2AMessage) (m : A2AMessage) (n : Z) :
  filter (λ x, is_request x) msgs = [m] →
  py_slice_to msgs n = pre ++ m :: post →
  is_request m = true ∧
  Forall (λ x, is_request x = false) pre ∧
  Forall (λ x, is_request x = false) post.
Proof.
  intros Hone Hex.
  assert (Hreq : is_request m = true).
  { assert (Hin : m ∈ filter (λ x, is_request x) msgs)
      by (rewrite Hone; apply list_elem_of_singleton; reflexivity).
    apply list_elem_of_filter in Hin as [Hm _]. by apply Is_true_true. }
  destruct (py_slice_to_prefix msgs n) as [rest Hmsgs].
  rewrite Hmsgs, Hex, <- app_assoc, filter_app in Hone. cbn [app] in Hone.
  rewrite filter_cons_True, filter_app in Hone by (by rewrite Hreq).
  destruct (filter (λ x, is_request x) pre) as [|x xs] eqn:Hpre.
  - injection Hone as Hrest. apply app_eq_nil in Hrest as [Hpost _].
    split_and!; [done|by apply filter_request_nil..].
  - injection Hone as _ Hbad. by destruct xs.
Qed.

(** C2, as the code has it. When the mailbox of [worker] holds exactly one
    ['recommendation_request'] [m], the cap is such that [m] is among the
    examined messages [msgs[:max_messages]], the client of [worker] is
    available and the resolved profile id of [m] has a stored profile, the
    call returns exactly one summary with status ['ok'], naming the
    requester (every other summary is ['ignored']), and sends exactly one
    message: a ['recommendation_response'] from the worker to the
    requester, appended to the mailbox of the requester, whose
    [original_message_id] is the [message_id] of [m] and which carries the
    query, the profile id and the result of the model.  No other mailbox
    gains a message. *)
Theorem worker_answers_request (worker : string) (max_messages : Z) (w : World)
    (pre post : list A2AMessage) (m : A2AMessage) (prof : Profile) :
  filter (λ x, is_request x) (inbox_of (hub w) worker) = [m] →
  py_slice_to (inbox_of (hub w) worker) max_messages = pre ++ m :: post →
  freigent_available w worker →
  db_load_profile (db w) (resolved_profile_id m) = Ok (Some prof) →
  ∃ fr w1 w',
    get_or_create_freigent worker w = (Ok fr, w1) ∧
    let query := request_query m in
    let pid := resolved_profile_id m in
    let result := llm_result ext (llm_calls w) fr prof query in
    let reply :=
      new_message ext w worker (from_agent_id m) (reply_payload m query pid result) in
    process_recommendation_requests_for_agent ext worker max_messages w
    = (Ok (map (ignored_summary ext) pre ++
           processed_ok m (from_agent_id m) ::
           map (ignored_summary ext) post), w') ∧
    dict_get (processed_ok m (from_agent_id m)) "status" = Some (VStr "ok") ∧
    dict_get (processed_ok m (from_agent_id m)) "sent_to"
    = Some (VStr (from_agent_id m)) ∧
    Forall (λ x, dict_get (ignored_summary ext x) "status" = Some (VStr "ignored"))
      (pre ++ post) ∧
    trace w' = trace w ++ [EvGetInbox worker true (inbox_of (hub w) worker);
                           EvDbLoadProfile pid;
                           EvGenerate (rjf_agent_id fr) prof query;
                           EvSend reply] ∧
    hub w' = (send_message (get_inbox (hub w) worker true).2
                (message_id reply) worker (from_agent_id m) (payload reply)).2 ∧
    (∀ aid, inbox_of (hub w') aid
            = (if decide (aid = worker) then [] else inbox_of (hub w) aid)
              ++ (if decide (aid = from_agent_id m) then [reply] else [])) ∧
    from_agent_id reply = worker ∧
    to_agent_id reply = from_agent_id m ∧
    is_response reply = true ∧
    dict_get (payload reply) "original_message_id" = Some (VStr (message_id m)) ∧
    dict_get (payload reply) "query" = Some query ∧
    dict_get (payload reply) "profile_user_id" = Some pid ∧
    dict_get (payload reply) "result" = Some result.
Proof.
  intros Hone Hex Havail Hload.
  destruct (only_request_examined _ _ _ _ _ Hone Hex) as (Hreq & Hpre & Hpost).
  destruct (freigent_available_creates w worker Havail) as (fr & w1 & Hfr).
  destruct (get_or_create_freigent_effect _ _ _ _ Hfr)
    as (Hhub & Htr & Hdb & _ & Hllm & Huuid).
  destruct (hub_get_inbox_effect worker true w1)
    as (w2 & Heq2 & Htr2 & Hdb2 & Hllm2 & Huuid2 & Hhub2).
  assert (Hload2 : db_load_profile (db w2) (resolved_profile_id m) = Ok (Some prof))
    by (by rewrite Hdb2, Hdb).
  pose proof (process_message_found fr worker m w2 prof Hreq Hload2) as Hm.
  cbv zeta in Hm.
  match type of Hm with
  | context [hub_send_message ext ?f ?t ?pl ?w0] =>
      destruct (hub_send_message_effect f t pl w0)
        as (w3 & Heq3 & Htr3 & _ & _ & Hhub3 & Hin3)
  end.
  rewrite Heq3 in Hm. cbn [snd] in Hm.
  cbn [trace hub log tick_llm uuid_calls llm_calls] in Htr3, Hhub3, Hin3.
  exists fr, w1, w3. split; [done|]. cbv zeta.
  split_and!; try reflexivity.
  - unfold process_recommendation_requests_for_agent.
    rewrite (bind_Ok _ _ _ _ _ Hfr), (bind_Ok _ _ _ _ _ Heq2).
    rewrite Hhub, Hex, process_messages_app.
    rewrite (bind_Ok _ _ _ _ _ (process_messages_ignored fr worker pre [] w2 Hpre)).
    cbn [process_messages app]. rewrite (bind_Ok _ _ _ _ _ Hm).
    rewrite process_messages_ignored by done.
    by rewrite <- app_assoc.
  - apply Forall_app. split; eapply Forall_impl; eauto.
  - rewrite Htr3, Htr2, Htr, Hhub, Hllm2, Hllm.
    unfold new_message. cbn [uuid_calls log tick_llm]. rewrite Huuid2, Huuid.
    by rewrite <- !app_assoc.
  - rewrite Hhub3, Hhub2, Hhub, Hllm2, Hllm, Huuid2, Huuid. reflexivity.
  - intros aid. rewrite Hin3, Hhub2, Hhub, Hllm2, Hllm.
    unfold new_message. cbn [uuid_calls log tick_llm]. rewrite Huuid2, Huuid.
    f_equal.
    + destruct (decide (aid = worker)) as [->|Hne].
      * apply inbox_of_get_inbox_eq.
      * by apply inbox_of_get_inbox_ne.
    + unfold addressed_to. destruct (decide (aid = from_agent_id m)) as [->|Hne].
      * by rewrite filter_cons_True, filter_nil.
      * rewrite filter_cons_False, filter_nil by (cbn; congruence). done.
Qed.

Lemma answers_addressed worker aid reqs sends :
  Forall2 (answers worker) reqs sends →
  Forall2 (answers worker)
    (filter (λ m, from_agent_id m = aid) reqs) (addressed_to aid sends).
Proof.
  unfold addressed_to.
  induction 1 as [|m s reqs sends Hans _ IH]; [constructor|].
  pose proof Hans as (_ & Hto & _).
  destruct (decide (from_agent_id m = aid)) as [Heq|Hne].
  - rewrite !filter_cons_True by congruence. by constructor.
  - rewrite !filter_cons_False by congruence. done.
Qed.

(** C4, as the code has it. After the worker's call has returned, the
    mailbox of the processed agent holds exactly the answers the worker
    sent to that same agent: one for each examined request whose
    [from_agent_id] is the agent's own id, in order, and nothing else.  It
    is therefore fully empty when no examined request came from the agent
    itself. *)
Theorem worker_mailbox_after_process (worker : string) (max_messages : Z)
    (w w' : World) (outs : list pydict) :
  process_recommendation_requests_for_agent ext worker max_messages w = (Ok outs, w') →
  let examined := py_slice_to (inbox_of (hub w) worker) max_messages in
  let own_requests :=
    filter (λ m, from_agent_id m = worker) (filter (λ m, is_request m) examined) in
  Forall2 (answers worker) own_requests (inbox_of (hub w') worker) ∧
  (own_requests = [] → inbox_of (hub w') worker = []).
Proof.
  intros Hrun examined own_requests.
  apply worker_effect in Hrun as (evs & _ & _ & _ & _ & Hans & Hin & _).
  apply (answers_addressed worker worker) in Hans. rewrite <- Hin in Hans.
  split; [done|]. intros Hnone. unfold own_requests, examined in Hnone.
  rewrite Hnone in Hans. by apply Forall2_nil_inv_l in Hans.
Qed.


End Worker.

(** *** The worker on concrete mailboxes *)


Lemma worker_answers_request_witness :
  ∃ w',
    process_recommendation_requests_for_agent demo_ext "u2" 10 busy_world
    = (Ok [ignored_summary demo_ext (demo_note "n-1" "u3" "u2");
           processed_ok (demo_request "m-1" "u1" "u2") "u1";
           ignored_summary demo_ext (demo_note "n-2" "u3" "u2")], w') ∧
    let reply :=
      demo_message "uuid-0" "u2" "u1"
        [("type", VStr "recommendation_response");
         ("original_message_id", VStr "m-1");
         ("query", VStr "tea");
         ("profile_user_id", VStr "u1");
         ("result",
          VDict [("products", VList [VDict [("name", VStr "gift for Ada")]]);
                 ("summary_for_user",
                  VStr "No summary_for_user provided by the model.")])] in
    sends_of (trace w') = [reply] ∧
    inbox_of (hub w') "u1" = [reply] ∧
    inbox_of (hub w') "u2" = [] ∧
    inbox_of (hub w') "u3" = [].
Proof.
  destruct (worker_answers_request demo_ext "u2" 10 busy_world
              [demo_note "n-1" "u3" "u2"] [demo_note "n-2" "u3" "u2"]
              (demo_request "m-1" "u1" "u2") ada)
    as (fr & w1 & w' & Hfr & Hrun & _ & _ & _ & Htr & _ & Hin & _).
  - reflexivity.
  - reflexivity.
  - right. exists "sk-test". split; [reflexivity|discriminate].
  - reflexivity.
  - exists w'. split; [exact Hrun|]. injection Hfr as <- _. cbv zeta.
    rewrite Htr, (Hin "u1"), (Hin "u2"), (Hin "u3"). by split_and!.
Defined.

(** C2, as stated, fails: the claim puts no condition on the cap, and a
    request that is not among the first [max_messages] drained messages is
    dropped.  With ten notes ahead of the one request and the default cap
    of 10, the call returns ten ['ignored'] summaries and none with status
    ['ok'], sends nothing, and the request is gone from the mailbox. *)
Lemma worker_drops_request_beyond_cap :
  filter (λ x, is_request x) (inbox_of (hub crowded_world) "u2")
  = [demo_request "m-1" "u1" "u2"] ∧
  db_load_profile (db crowded_world) (resolved_profile_id (demo_request "m-1" "u1" "u2"))
  = Ok (Some ada) ∧
  freigent_available crowded_world "u2" ∧
  ∃ outs w',
    process_recommendation_requests_for_agent demo_ext "u2" 10 crowded_world
    = (Ok outs, w') ∧
    length outs = 10%nat ∧
    Forall (λ out, dict_get out "status" = Some (VStr "ignored")) outs ∧
    sends_of (trace w') = [] ∧
    inbox_of (hub w') "u1" = [] ∧
    inbox_of (hub w') "u2" = [].
Proof.
  split_and!; [reflexivity|reflexivity| |].
  - right. exists "sk-test". split; [reflexivity|discriminate].
  - eexists _, _. split; [vm_compute; reflexivity|].
    split_and!; try reflexivity. repeat constructor.
Qed.

Lemma worker_mailbox_after_process_witness :
  inbox_of
    (hub (process_recommendation_requests_for_agent demo_ext "u2" 10 busy_world).2)
    "u2" = [].
Proof.
  apply (worker_mailbox_after_process demo_ext "u2" 10 busy_world _
           [ignored_summary demo_ext (demo_note "n-1" "u3" "u2");
            processed_ok (demo_request "m-1" "u1" "u2") "u1";
            ignored_summary demo_ext (demo_note "n-2" "u3" "u2")]).
  - vm_compute. reflexivity.
  - reflexivity.
Defined.

(** C4, as stated, fails: a request that names the processed agent as its
    sender is answered into the mailbox that was just drained, which is
    not empty when the call returns. *)
Lemma worker_mailbox_not_emptied :
  ∃ outs w',
    process_recommendation_requests_for_agent demo_ext "u2" 10 self_world
    = (Ok outs, w') ∧
    from_agent_id (demo_request "m-1" "u2" "u2") = "u2" ∧
    outs = [processed_ok (demo_request "m-1" "u2" "u2") "u2"] ∧
    map message_id (inbox_of (hub w') "u2") = ["uuid-0"] ∧
    inbox_of (hub w') "u2" ≠ [].
Proof.
  eexists _, _. split; [vm_compute; reflexivity|].
  split_and!; try reflexivity. discriminate.
Qed.



(** ** The orchestrator *)

Section Orchestrator.
Context (ext : Externals).

#[local] Arguments send_message : simpl never.
#[local] Arguments get_inbox : simpl never.
#[local] Arguments register_agent : simpl never.
#[local] Arguments inbox_of : simpl never.

(** *** Validation and the merge *)

Lemma as_dict_Some v d : as_dict v = Some d → v = VDict d.
Proof. destruct v; simpl; congruence. Qed.

Lemma as_dict_list_Some l : ∀ k, as_dict_list l = Some k → map VDict k = l.
Proof.
  unfold as_dict_list. intros k Hk. apply mapM_Some in Hk.
  induction Hk as [|v d l k Hv _ IH]; [done|].
  apply as_dict_Some in Hv. cbn [map]. by rewrite IH, Hv.
Qed.

Lemma extend_if_list_app acc v : extend_if_list acc v = acc ++ extend_if_list [] v.
Proof. destruct v; simpl; by rewrite ?app_nil_r. Qed.

(** The loop of the fan-in changes nothing in the world; it appends one
    [HelperResult] for each ['recommendation_response'] of the drained
    mailbox, in order, and the products of each. *)
Lemma fan_in_Ok incoming : ∀ hrs merged w hrs' merged' w',
  fan_in incoming hrs merged w = (Ok (hrs', merged'), w') →
  w' = w ∧
  ∃ new, hrs' = hrs ++ new ∧
    map agent_and_result new
    = map sender_and_result (filter (λ m, is_response m) incoming) ∧
    merged' = merged ++ flat_map (λ hr, products_of (hr_result hr)) new.
Proof.
  induction incoming as [|msg rest IH]; intros hrs merged w hrs' merged' w' Hrun;
    cbn [fan_in] in Hrun.
  - injection Hrun as <- <- <-. split; [done|]. exists []. by rewrite !app_nil_r.
  - change (py_is_str _ "recommendation_response") with (is_response msg) in Hrun.
    change (py_get _ "result" (VDict [])) with (response_result msg) in Hrun.
    destruct (is_response msg) eqn:Hresp; cbn [negb] in Hrun.
    + destruct (as_dict (response_result msg)) as [r|] eqn:Hr; [|discriminate].
      pose proof (as_dict_Some _ _ Hr) as Hv. rewrite Hv in Hrun.
      cbn [py_method_get] in Hrun. unfold bind at 1, ret at 1 in Hrun.
      apply IH in Hrun as (-> & new & -> & Hmap & ->). split; [done|].
      exists ({| hr_agent_id := from_agent_id msg; hr_result := r |} :: new).
      split_and!.
      * by rewrite <- app_assoc.
      * rewrite filter_cons_True by (by rewrite Hresp). cbn [map].
        rewrite Hmap. unfold agent_and_result at 1.
        cbn [hr_agent_id hr_result]. rewrite <- Hv. reflexivity.
      * rewrite extend_if_list_app. cbn [flat_map]. unfold products_of at 2.
        by rewrite <- app_assoc.
    + apply IH in Hrun as (-> & new & -> & Hmap & ->). split; [done|].
      exists new. split_and!; [done| |done].
      by rewrite filter_cons_False by (rewrite Hresp; exact id).
Qed.

Lemma filter_no_response (l : list A2AMessage) :
  Forall (λ m, is_response m = false) l → filter (λ m, is_response m) l = [].
Proof.
  induction 1 as [|m l Hm _ IH]; [done|].
  by rewrite filter_cons_False by (rewrite Hm; exact id).
Qed.

(** *** The three loops over the helpers *)

Lemma db_load_profile_str d s : ∃ o, db_load_profile d (VStr s) = Ok o.
Proof.
  unfold db_load_profile. cbn [sqlite_bind_text].
  destruct (List.find _ _); eauto.
Qed.

Lemma register_helpers_effect helper_ids : ∀ w,
  ∃ w' evs, register_helpers helper_ids w = (Ok tt, w') ∧
    trace w' = trace w ++ evs ∧ peer_ops evs = [] ∧ db w' = db w ∧
    uuid_calls w' = uuid_calls w ∧
    ∀ aid, inbox_of (hub w') aid = inbox_of (hub w) aid.
Proof.
  induction helper_ids as [|hid rest IH]; intros w; cbn [register_helpers].
  - exists w, []. by rewrite app_nil_r.
  - unfold bind at 1, load_profile at 1.
    destruct (db_load_profile_str (db w) hid) as [[prof|] ->].
    + unfold bind at 1 2, hub_register_agent, ret.
      match goal with
      | |- context [register_helpers rest ?w1] =>
          destruct (IH w1) as (w' & evs & -> & Htr & Hops & Hdb & Huuid & Hin)
      end.
      cbn [trace hub db uuid_calls log set_hub] in Htr, Hdb, Hin, Huuid.
      exists w', ([EvDbLoadProfile (VStr hid); EvRegister hid] ++ evs).
      split_and!; try done.
      * by rewrite Htr, <- !app_assoc.
      * intros aid. by rewrite Hin, inbox_of_register.
    + unfold bind at 1, ret.
      match goal with
      | |- context [register_helpers rest ?w1] =>
          destruct (IH w1) as (w' & evs & -> & Htr & Hops & Hdb & Huuid & Hin)
      end.
      cbn [trace hub db uuid_calls log] in Htr, Hdb, Hin, Huuid.
      exists w', ([EvDbLoadProfile (VStr hid)] ++ evs).
      split_and!; try done.
      by rewrite Htr, <- !app_assoc.
Qed.

Lemma send_requests_effect user_id query helper_ids : ∀ w,
  ∃ w' evs, send_requests ext user_id query helper_ids w = (Ok tt, w') ∧
    trace w' = trace w ++ evs ∧
    peer_ops evs = map Requested helper_ids ∧ db w' = db w.
Proof.
  induction helper_ids as [|hid rest IH]; intros w; cbn [send_requests].
  - exists w, []. by rewrite app_nil_r.
  - destruct (hub_send_message_effect ext user_id hid (request_payload user_id query) w)
      as (w1 & Heq & Htr1 & Hdb1 & _).
    rewrite (bind_Ok _ _ _ _ _ Heq).
    destruct (IH w1) as (w' & evs & -> & Htr & Hops & Hdb).
    exists w', ([EvSend (new_message ext w user_id hid (request_payload user_id query))]
                ++ evs).
    split_and!; try done.
    + by rewrite Htr, Htr1, <- !app_assoc.
    + rewrite peer_ops_app, Hops. reflexivity.
    + by rewrite Hdb.
Qed.

Lemma dispatch_helpers_effect helper_ids : ∀ w w',
  dispatch_helpers ext helper_ids w = (Ok tt, w') →
  ∃ evs, trace w' = trace w ++ evs ∧
    peer_ops evs = map Drained helper_ids ∧ db w' = db w.
Proof.
  induction helper_ids as [|hid rest IH]; intros w w' Hrun; cbn [dispatch_helpers] in Hrun.
  - injection Hrun as <-. exists []. by rewrite app_nil_r.
  - bind_inv Hrun as outs w1 Hm.
    apply worker_effect in Hm as (evs1 & Htr1 & Hops1 & Hdb1 & _).
    apply IH in Hrun as (evs2 & Htr2 & Hops2 & Hdb2).
    exists ((EvGetInbox hid true (inbox_of (hub w) hid) :: evs1) ++ evs2).
    split_and!.
    + by rewrite Htr2, Htr1, <- !app_assoc.
    + rewrite peer_ops_app, Hops2.
      change (peer_ops (?e :: evs1)) with (Drained hid :: peer_ops evs1).
      by rewrite Hops1.
    + by rewrite Hdb2.
Qed.

(** *** A run that completes, phase by phase *)

Lemma auto_search_Ok_inv user_id query w resp w' :
  freigent_auto_search ext user_id query w = (Ok resp, w') →
  let helper_ids := db_list_helper_agent_ids (db w) user_id in
  ∃ evs0 w0 w1 w2 w3,
    trace w0 = trace w ++ evs0 ∧ peer_ops evs0 = [] ∧ hub w0 = hub w ∧
    register_helpers helper_ids w0 = (Ok tt, w1) ∧
    send_requests ext user_id query helper_ids w1 = (Ok tt, w2) ∧
    dispatch_helpers ext helper_ids w2 = (Ok tt, w3) ∧
    let incoming := inbox_of (hub w3) user_id in
    trace w' = trace w3 ++ [EvGetInbox user_id true incoming] ∧
    base_agent_id resp = user_id ∧
    helper_agent_ids resp = helper_ids ∧
    map agent_and_result (helper_results resp)
    = map sender_and_result (filter (λ m, is_response m) incoming) ∧
    map VDict (merged_products resp)
    = products_of (base_result resp)
      ++ flat_map (λ hr, products_of (hr_result hr)) (helper_results resp) ∧
    merged_summary_for_user resp
    = merged_summary user_id (length (helper_results resp)) helper_ids.
Proof.
  intros Hrun helper_ids. unfold freigent_auto_search in Hrun.
  bind_inv Hrun as oprof wp Hload. unfold load_profile in Hload.
  injection Hload as Hprof <-.
  destruct oprof as [profile|]; [|discriminate].
  bind_inv Hrun as fr wf Hfr.
  apply get_or_create_freigent_effect in Hfr as (Hhub1 & Htr1 & Hdb1 & _).
  bind_inv Hrun as base_v wg Hgen.
  unfold generate_recommendations_json in Hgen. injection Hgen as <- <-.
  bind_inv Hrun as ids wl Hlist.
  unfold list_helper_agent_ids in Hlist. injection Hlist as <- <-.
  cbn [db log tick_llm] in Hrun. rewrite Hdb1 in Hrun. cbn [db log] in Hrun.
  fold helper_ids in Hrun.
  bind_inv Hrun as u1 wr Hreg. destruct u1.
  bind_inv Hrun as u2 ws Hsend. destruct u2.
  bind_inv Hrun as u3 wd Hdisp. destruct u3.
  bind_inv Hrun as incoming wi Hinbox.
  destruct (hub_get_inbox_effect user_id true wd) as (wi' & Heq & Htri & _).
  rewrite Heq in Hinbox. injection Hinbox as <- <-.
  bind_inv Hrun as base_products wb Hbase.
  bind_inv Hrun as acc wa Hfan. destruct acc as [hrs merged]. cbn [fst snd] in Hrun.
  apply fan_in_Ok in Hfan as (-> & new & Hhrs & Hmap & Hmerged).
  cbn [app] in Hhrs. subst hrs.
  match type of Hrun with
  | context [as_dict ?v] => destruct (as_dict v) as [base|] eqn:Hb; [|discriminate]
  end.
  destruct (as_dict_list merged) as [products|] eqn:Hp; [|discriminate].
  injection Hrun as <- <-.
  apply as_dict_Some in Hb. rewrite Hb in Hbase.
  cbn [py_method_get] in Hbase. injection Hbase as <- <-.
  apply as_dict_list_Some in Hp.
  match type of Hreg with
  | register_helpers _ ?w0 = _ =>
      exists [EvDbLoadProfile (VStr user_id);
              EvGenerate (rjf_agent_id fr) profile (VStr query);
              EvDbListHelpers user_id], w0, wr, ws, wd
  end.
  split_and!; [| |exact Hhub1|exact Hreg|exact Hsend|exact Hdisp|..].
  - cbn [trace log tick_llm]. rewrite Htr1. cbn [trace log].
    by rewrite <- !app_assoc.
  - reflexivity.
  - cbv zeta. split_and!; try done.
    cbn [merged_products base_result helper_results]. by rewrite Hp, Hmerged.
Qed.

(** C7. When the base profile is absent, the run stops with the HTTP 400
    error that reports the missing profile and returns no response; the
    lookup of the base profile is the only thing it did: the model was not
    called, no peer was listed, registered or messaged, no client was
    created, and the hub is as it was. *)
Theorem auto_search_missing_base_profile (user_id query : string) (w : World) :
  db_load_profile (db w) (VStr user_id) = Ok None →
  ∃ w',
    freigent_auto_search ext user_id query w
    = (Raise (HTTPException 400
                ("No profile stored for user_id '" +:+ user_id +:+ "'. "
                 +:+ "Call POST /freigent/" +:+ user_id +:+ "/profile first.")), w') ∧
    trace w' = trace w ++ [EvDbLoadProfile (VStr user_id)] ∧
    hub w' = hub w ∧
    FREIGENTS w' = FREIGENTS w ∧
    db w' = db w ∧
    llm_calls w' = llm_calls w ∧
    uuid_calls w' = uuid_calls w.
Proof.
  intros Hload. eexists. split.
  - unfold freigent_auto_search, bind, load_profile. rewrite Hload. reflexivity.
  - by split_and!.
Qed.

(** C3. In every run that completes, the base mailbox is drained last,
    the helper results are the ['recommendation_response'] messages of
    that drain, in drain order, and [merged_products] is the product list
    of the base result followed by the product list of each helper result
    in that order: a plain concatenation. *)
Theorem merged_products_concatenation (user_id query : string) (w w' : World)
    (resp : AutoSearchResponse) :
  freigent_auto_search ext user_id query w = (Ok resp, w') →
  ∃ incoming,
    last (trace w') = Some (EvGetInbox user_id true incoming) ∧
    map agent_and_result (helper_results resp)
    = map sender_and_result (filter (λ m, is_response m) incoming) ∧
    map VDict (merged_products resp)
    = products_of (base_result resp)
      ++ flat_map (λ hr, products_of (hr_result hr)) (helper_results resp).
Proof.
  intros Hrun.
  apply auto_search_Ok_inv in Hrun
    as (evs0 & w0 & w1 & w2 & w3 & _ & _ & _ & _ & _ & _ & Htr & _ & _ & Hres & Hmerged & _).
  exists (inbox_of (hub w3) user_id). split_and!; [|done|done].
  rewrite Htr. apply last_snoc.
Qed.

(** C5, as the code has it. In every run that completes, the request of
    every discovered peer is sent, in discovery order, before any mailbox
    is drained; then the worker drains the mailbox of each peer, one at a
    time in the same order; the base mailbox is drained last. *)
Theorem fan_out_then_dispatch (user_id query : string) (w w' : World)
    (resp : AutoSearchResponse) :
  freigent_auto_search ext user_id query w = (Ok resp, w') →
  helper_agent_ids resp = db_list_helper_agent_ids (db w) user_id ∧
  ∃ evs,
    trace w' = trace w ++ evs ∧
    peer_ops evs
    = map Requested (helper_agent_ids resp)
      ++ map Drained (helper_agent_ids resp)
      ++ [Drained user_id].
Proof.
  intros Hrun.
  apply auto_search_Ok_inv in Hrun
    as (evs0 & w0 & w1 & w2 & w3 & Htr0 & Hops0 & _ & Hreg & Hsend & Hdisp
        & Htr & _ & Hids & _).
  split; [done|]. rewrite Hids.
  destruct (register_helpers_effect (db_list_helper_agent_ids (db w) user_id) w0)
    as (w1' & evs1 & Hreg' & Htr1 & Hops1 & _).
  rewrite Hreg in Hreg'. injection Hreg' as <-.
  destruct (send_requests_effect user_id query
              (db_list_helper_agent_ids (db w) user_id) w1)
    as (w2' & evs2 & Hsend' & Htr2 & Hops2 & _).
  rewrite Hsend in Hsend'. injection Hsend' as <-.
  apply dispatch_helpers_effect in Hdisp as (evs3 & Htr3 & Hops3 & _).
  exists (evs0 ++ evs1 ++ evs2 ++ evs3
          ++ [EvGetInbox user_id true (inbox_of (hub w3) user_id)]).
  split.
  - rewrite Htr, Htr3, Htr2, Htr1, Htr0. by rewrite <- !app_assoc.
  - rewrite !peer_ops_app, Hops0, Hops1, Hops2, Hops3. reflexivity.
Qed.

(** C6, as the code has it. When discovery returns no peer, a run that
    completes returns no helper id and a summary that states ['none']; its
    helper results are the ['recommendation_response'] messages that were
    already waiting in the base mailbox.  When none was waiting, there is
    no helper result, the summary counts 0 helpers, and [merged_products]
    is the product list of the base result. *)
Theorem auto_search_without_peers (user_id query : string) (w w' : World)
    (resp : AutoSearchResponse) :
  db_list_helper_agent_ids (db w) user_id = [] →
  freigent_auto_search ext user_id query w = (Ok resp, w') →
  helper_agent_ids resp = [] ∧
  merged_summary_for_user resp
  = "This response combines the base Freigent '" +:+ user_id
    +:+ "' recommendations with " +:+ pretty (length (helper_results resp))
    +:+ " helper Freigent(s): none." ∧
  map agent_and_result (helper_results resp)
  = map sender_and_result (filter (λ m, is_response m) (inbox_of (hub w) user_id)) ∧
  (Forall (λ m, is_response m = false) (inbox_of (hub w) user_id) →
   helper_results resp = [] ∧
   length (helper_results resp) = 0%nat ∧
   map VDict (merged_products resp) = products_of (base_result resp)).
Proof.
  intros Hnone Hrun.
  apply auto_search_Ok_inv in Hrun
    as (evs0 & w0 & w1 & w2 & w3 & _ & _ & Hhub & Hreg & Hsend & Hdisp
        & _ & _ & Hids & Hres & Hmerged & Hsum).
  rewrite Hnone in *.
  cbn [register_helpers send_requests dispatch_helpers] in Hreg, Hsend, Hdisp.
  injection Hreg as <-. injection Hsend as <-. injection Hdisp as <-.
  rewrite Hhub in Hres.
  split_and!; [done| |done|].
  - rewrite Hsum. reflexivity.
  - intros Hquiet.
    assert (Hnil : helper_results resp = []).
    { rewrite (filter_no_response _ Hquiet) in Hres.
      by apply map_eq_nil in Hres. }
    rewrite Hnil in *. split_and!; [done|done|].
    by rewrite Hmerged, app_nil_r.
Qed.

End Orchestrator.

(** *** The orchestrator on concrete worlds *)

Lemma auto_search_missing_base_profile_witness :
  ∃ w',
    freigent_auto_search demo_ext "u8" "tea" fresh_world
    = (Raise (HTTPException 400
                "No profile stored for user_id 'u8'. Call POST /freigent/u8/profile first."),
       w') ∧
    trace w' = [EvDbLoadProfile (VStr "u8")] ∧
    hub w' = NandaHub_init.
Proof.
  destruct (auto_search_missing_base_profile demo_ext "u8" "tea" fresh_world)
    as (w' & Hrun & Htr & Hhub & _); [reflexivity|].
  exists w'. split_and!; [exact Hrun|exact Htr|exact Hhub].
Defined.

Lemma merged_products_concatenation_witness :
  ∃ resp w',
    freigent_auto_search demo_ext "u1" "tea" fresh_world = (Ok resp, w') ∧
    map hr_agent_id (helper_results resp) = ["u2"; "u3"] ∧
    map VDict (merged_products resp)
    = products_of (base_result resp)
      ++ flat_map (λ hr, products_of (hr_result hr)) (helper_results resp) ∧
    length (merged_products resp) = 3%nat.
Proof.
  eexists _, _. split; [vm_compute; reflexivity|].
  match goal with
  | |- context [helper_results ?resp] =>
      pose proof (λ w' Hrun,
        merged_products_concatenation demo_ext "u1" "tea" fresh_world w' resp Hrun)
        as Hthm
  end.
  edestruct Hthm as (incoming & _ & _ & Hmerged); [vm_compute; reflexivity|].
  split_and!; [reflexivity|exact Hmerged|reflexivity].
Defined.

Lemma fan_out_then_dispatch_witness :
  ∃ resp w',
    freigent_auto_search demo_ext "u1" "tea" fresh_world = (Ok resp, w') ∧
    peer_ops (trace w')
    = map Requested (helper_agent_ids resp)
      ++ map Drained (helper_agent_ids resp) ++ [Drained "u1"].
Proof.
  eexists _, _. split; [vm_compute; reflexivity|].
  match goal with
  | |- context [helper_agent_ids ?resp] =>
      pose proof (λ w' Hrun,
        fan_out_then_dispatch demo_ext "u1" "tea" fresh_world w' resp Hrun) as Hthm
  end.
  edestruct Hthm as (_ & evs & Htr & Hops); [vm_compute; reflexivity|].
  rewrite Htr. exact Hops.
Defined.

(** C5, as stated, fails: with two peers, the request of the second peer
    is sent before the mailbox of the first peer is drained. *)
Lemma second_request_precedes_first_drain :
  ∃ resp w',
    freigent_auto_search demo_ext "u1" "tea" fresh_world = (Ok resp, w') ∧
    helper_agent_ids resp = ["u2"; "u3"] ∧
    peer_ops (trace w')
    = [Requested "u2"; Requested "u3"; Drained "u2"; Drained "u3"; Drained "u1"] ∧
    peer_ops (trace w') !! 1%nat = Some (Requested "u3") ∧
    peer_ops (trace w') !! 2%nat = Some (Drained "u2") ∧
    peer_ops (trace w')
    ≠ flat_map (λ peer, [Requested peer; Drained peer]) (helper_agent_ids resp)
      ++ [Drained "u1"].
Proof.
  eexists _, _. split; [vm_compute; reflexivity|].
  split_and!; try reflexivity. discriminate.
Qed.

Lemma auto_search_without_peers_witness :
  ∃ resp w',
    freigent_auto_search demo_ext "u1" "tea" quiet_world = (Ok resp, w') ∧
    helper_agent_ids resp = [] ∧
    helper_results resp = [] ∧
    map VDict (merged_products resp) = products_of (base_result resp) ∧
    merged_summary_for_user resp
    = "This response combines the base Freigent 'u1' recommendations with 0 helper Freigent(s): none.".
Proof.
  eexists _, _. split; [vm_compute; reflexivity|].
  match goal with
  | |- context [helper_results ?resp] =>
      pose proof (λ w' Hrun,
        auto_search_without_peers demo_ext "u1" "tea" quiet_world w' resp
          eq_refl Hrun) as Hthm
  end.
  edestruct Hthm as (Hids & Hsum & _ & Hquiet); [vm_compute; reflexivity|].
  destruct Hquiet as (Hres & _ & Hmerged); [repeat constructor|].
  split_and!; [exact Hids|exact Hres|exact Hmerged|reflexivity].
Defined.

(** C6, as stated, fails: with no peer at all, a response that was already
    waiting in the base mailbox becomes a helper result and its products
    are merged. *)
Lemma stale_response_is_merged :
  ∃ resp w',
    freigent_auto_search demo_ext "u1" "tea" stale_world = (Ok resp, w') ∧
    db_list_helper_agent_ids (db stale_world) "u1" = [] ∧
    helper_agent_ids resp = [] ∧
    map hr_agent_id (helper_results resp) = ["u9"] ∧
    helper_results resp ≠ [] ∧
    map VDict (merged_products resp)
    = products_of (base_result resp) ++ [VDict [("name", VStr "old offer")]] ∧
    map VDict (merged_products resp) ≠ products_of (base_result resp) ∧
    merged_summary_for_user resp
    = "This response combines the base Freigent 'u1' recommendations with 1 helper Freigent(s): none.".
Proof.
  eexists _, _. split; [vm_compute; reflexivity|].
  split_and!; try reflexivity; discriminate.
Qed.

(** ** More on the hub *)

(** X1. Registering an id twice leaves exactly the fields of the second
    registration visible: the hub is the one a single registration with
    those fields gives, and the directory gained the one id. *)
Theorem register_agent_last_write_wins (h : NandaHub)
    (aid t1 d1 p1 t2 d2 p2 : string) :
  let h1 := (register_agent h aid t1 d1 p1).2 in
  let h2 := (register_agent h1 aid t2 d2 p2).2 in
  get_agent h2 aid
  = Some {| agent_id := aid; agent_type := t2;
            display_name := d2; personality_summary := p2 |} ∧
  h2 = (register_agent h aid t2 d2 p2).2 ∧
  dom (agents h2) = {[aid]} ∪ dom (agents h).
Proof.
  unfold register_agent, get_agent. cbn [fst snd agents inboxes].
  split_and!.
  - by rewrite lookup_insert_eq.
  - rewrite insert_insert_eq. f_equal.
    destruct (inboxes h !! aid) eqn:E.
    + by rewrite E.
    + by rewrite lookup_insert_eq.
  - rewrite insert_insert_eq. by rewrite dom_insert_L.
Qed.

(** X2. A registration never loses mail: every mailbox reads as before,
    the registered id has a mailbox afterwards, and the records and
    mailboxes of the other ids are untouched. *)
Theorem register_agent_keeps_mailboxes (h : NandaHub) (aid t d p : string) :
  let h' := (register_agent h aid t d p).2 in
  is_Some (inboxes h' !! aid) ∧
  (∀ a, inbox_of h' a = inbox_of h a) ∧
  (∀ a, a ≠ aid →
     get_agent h' a = get_agent h a ∧ inboxes h' !! a = inboxes h !! a).
Proof.
  cbv zeta. split_and!.
  - unfold register_agent. cbn [snd inboxes].
    destruct (inboxes h !! aid) eqn:E; [by rewrite E|by rewrite lookup_insert_eq].
  - intros a. apply inbox_of_register.
  - intros a Hne. unfold register_agent, get_agent. cbn [snd agents inboxes].
    rewrite lookup_insert_ne by done. split; [done|].
    destruct (inboxes h !! aid); [done|]. by rewrite lookup_insert_ne.
Qed.

(** X3. A send delivers the new message once, at the end of the
    recipient's mailbox, whether or not that mailbox existed; no other
    mailbox changes, and the recipient is not added to the directory. *)
Theorem send_message_delivers_once (h : NandaHub) (uuid from to : string)
    (pl : pydict) :
  let m := (send_message h uuid from to pl).1 in
  let h' := (send_message h uuid from to pl).2 in
  m = {| message_id := uuid; from_agent_id := from;
         to_agent_id := to; payload := pl |} ∧
  (∀ a, inbox_of h' a = inbox_of h a ++ (if decide (a = to) then [m] else [])) ∧
  agents h' = agents h ∧
  dom (inboxes h') = {[to]} ∪ dom (inboxes h).
Proof.
  cbv zeta. split_and!; [done| |done|].
  - intros a. destruct (decide (a = to)) as [->|Hne].
    + apply inbox_of_send_eq.
    + rewrite app_nil_r. by apply inbox_of_send_ne.
  - unfold send_message. cbn [snd inboxes]. rewrite dom_insert_L.
    destruct (inboxes h !! to) eqn:E; [done|].
    rewrite dom_insert_L. by rewrite (assoc_L (∪)), union_idemp_L.
Qed.

(** ** The database *)

Lemma find_upsert_same {A} (same : A → bool) (row : A) (rows : list A) :
  same row = true → List.find same (upsert_row same row rows) = Some row.
Proof.
  intros Hrow. induction rows as [|r rows IH]; cbn [upsert_row List.find].
  - by rewrite Hrow.
  - destruct (same r) eqn:Hr; cbn [List.find].
    + by rewrite Hrow.
    + by rewrite Hr.
Qed.

Lemma find_upsert_other {A} (same other : A → bool) (row : A) (rows : list A) :
  other row = false →
  (∀ r, same r = true → other r = false) →
  List.find other (upsert_row same row rows) = List.find other rows.
Proof.
  intros Hrow Hdisj. induction rows as [|r rows IH]; cbn [upsert_row List.find].
  - by rewrite Hrow.
  - destruct (same r) eqn:Hr; cbn [List.find].
    + by rewrite Hrow, (Hdisj r Hr).
    + by rewrite IH.
Qed.

Lemma storable_forallb profile :
  storable profile →
  forallb (λ exp, sqlite_int (exp_rating exp)) (prof_experiences profile) = true.
Proof.
  unfold storable, sqlite_int. induction 1 as [|exp exps Hexp _ IH]; [done|].
  cbn [forallb]. by rewrite IH, bool_decide_eq_true_2.
Qed.

Lemma filter_experiences_inserted (uid : string) (exps : list Experience) :
  filter (λ e, e_user_id e = uid)
    (map (λ exp, {| e_user_id := uid; e_name := exp_name exp;
                    e_notes := exp_notes exp; e_rating := exp_rating exp |}) exps)
  = map (λ exp, {| e_user_id := uid; e_name := exp_name exp;
                   e_notes := exp_notes exp; e_rating := exp_rating exp |}) exps.
Proof.
  induction exps as [|exp exps IH]; [done|].
  cbn [map]. rewrite filter_cons_True by done. by rewrite IH.
Qed.

Lemma filter_experiences_inserted_other (uid uid' : string) (exps : list Experience) :
  uid' ≠ uid →
  filter (λ e, e_user_id e = uid')
    (map (λ exp, {| e_user_id := uid; e_name := exp_name exp;
                    e_notes := exp_notes exp; e_rating := exp_rating exp |}) exps)
  = [].
Proof.
  intros Hne. induction exps as [|exp exps IH]; [done|].
  cbn [map]. by rewrite filter_cons_False by (cbn; congruence).
Qed.

Lemma filter_experiences_kept (uid : string) (rows : list ExperienceRow) :
  filter (λ e, e_user_id e = uid) (filter (λ e, e_user_id e ≠ uid) rows) = [].
Proof.
  induction rows as [|r rows IH]; [done|].
  destruct (decide (e_user_id r = uid)) as [Heq|Hne].
  - by rewrite (filter_cons_False (λ e, e_user_id e ≠ uid)) by tauto.
  - rewrite (filter_cons_True (λ e, e_user_id e ≠ uid)) by done.
    by rewrite filter_cons_False by done.
Qed.

Lemma filter_experiences_kept_other (uid uid' : string) (rows : list ExperienceRow) :
  uid' ≠ uid →
  filter (λ e, e_user_id e = uid') (filter (λ e, e_user_id e ≠ uid) rows)
  = filter (λ e, e_user_id e = uid') rows.
Proof.
  intros Hne. induction rows as [|r rows IH]; [done|].
  destruct (decide (e_user_id r = uid)) as [Heq|Hne'].
  - rewrite (filter_cons_False (λ e, e_user_id e ≠ uid)) by tauto.
    by rewrite filter_cons_False by congruence.
  - rewrite (filter_cons_True (λ e, e_user_id e ≠ uid)) by done.
    destruct (decide (e_user_id r = uid')).
    + rewrite !filter_cons_True by done. by rewrite IH.
    + by rewrite !filter_cons_False by done.
Qed.

Lemma experiences_round_trip (uid : string) (exps : list Experience) :
  map (λ e, {| exp_name := e_name e; exp_notes := e_notes e; exp_rating := e_rating e |})
    (map (λ exp, {| e_user_id := uid; e_name := exp_name exp;
                    e_notes := exp_notes exp; e_rating := exp_rating exp |}) exps)
  = exps.
Proof.
  induction exps as [|[n s r] exps IH]; [done|]. cbn [map]. by rewrite IH.
Qed.

Lemma db_upsert_profile_storable (d : Database) (user_id : string) (profile : Profile) :
  storable profile → ∃ d', db_upsert_profile d user_id profile = Ok d'.
Proof.
  intros Hst. unfold db_upsert_profile. rewrite (storable_forallb _ Hst). eauto.
Qed.

Lemma db_upsert_profile_load (d d' : Database) (user_id : string) (profile : Profile) :
  db_upsert_profile d user_id profile = Ok d' →
  db_load_profile d' (VStr user_id) = Ok (Some profile).
Proof.
  unfold db_upsert_profile. destruct (forallb _ _); [|discriminate]. intros [= <-].
  unfold db_load_profile. cbn [sqlite_bind_text tbl_profiles tbl_experiences].
  rewrite find_upsert_same by (by apply bool_decide_eq_true_2).
  cbn [p_name p_personality p_values_text].
  rewrite filter_app, filter_experiences_kept, filter_experiences_inserted.
  cbn [app]. rewrite experiences_round_trip. by destruct profile.
Qed.

(** X4. Round trip: once [db_upsert_profile] has stored a profile for a
    user, [db_load_profile] returns that very profile, experiences in the
    same order, whatever was stored for the user before. *)
Theorem upsert_then_load_profile (d : Database) (user_id : string) (profile : Profile) :
  storable profile →
  ∃ d', db_upsert_profile d user_id profile = Ok d' ∧
        db_load_profile d' (VStr user_id) = Ok (Some profile).
Proof.
  intros Hst.
  destruct (db_upsert_profile_storable d user_id profile Hst) as [d' Hup].
  exists d'. split; [done|]. by eapply db_upsert_profile_load.
Qed.

(** X5. Storing a profile for one user changes what [db_load_profile]
    returns for no other user, and leaves the [agents] table alone. *)
Theorem upsert_profile_other_users (d d' : Database) (user_id other : string)
    (profile : Profile) :
  db_upsert_profile d user_id profile = Ok d' →
  other ≠ user_id →
  db_load_profile d' (VStr other) = db_load_profile d (VStr other) ∧
  tbl_agents d' = tbl_agents d.
Proof.
  unfold db_upsert_profile. intros Hup Hne.
  destruct (forallb _ _); [|discriminate]. injection Hup as <-.
  split; [|done].
  unfold db_load_profile. cbn [sqlite_bind_text tbl_profiles tbl_experiences].
  rewrite find_upsert_other.
  - rewrite filter_app, filter_experiences_kept_other by done.
    rewrite filter_experiences_inserted_other by done. by rewrite app_nil_r.
  - apply bool_decide_eq_false_2. cbn. congruence.
  - intros r Hr. apply bool_decide_eq_true_1 in Hr.
    apply bool_decide_eq_false_2. congruence.
Qed.

(** ** Discovery *)

Lemma helper_ids_stored (d : Database) (base_user_id hid : string) :
  hid ∈ db_list_helper_agent_ids d base_user_id →
  hid ≠ base_user_id ∧ ∃ p, p ∈ tbl_profiles d ∧ p_user_id p = hid.
Proof.
  unfold db_list_helper_agent_ids. rewrite list_elem_of_In, in_flat_map.
  intros (a & Ha & Hin).
  apply list_elem_of_In, list_elem_of_filter in Ha as [[_ Hne] _].
  apply in_map_iff in Hin as (p & <- & Hp).
  apply list_elem_of_In, list_elem_of_filter in Hp as [Hkey Hp].
  split; [done|]. exists p. by split.
Qed.

(** X6. Discovery returns exactly the ids, other than the base id, that
    have a row of type ['freigent'] in [agents] and a row in [profiles]. *)
Theorem helper_ids_characterised (d : Database) (base_user_id hid : string) :
  hid ∈ db_list_helper_agent_ids d base_user_id ↔
  hid ≠ base_user_id ∧
  (∃ a, a ∈ tbl_agents d ∧ a_agent_id a = hid ∧ a_agent_type a = "freigent") ∧
  (∃ p, p ∈ tbl_profiles d ∧ p_user_id p = hid).
Proof.
  unfold db_list_helper_agent_ids. rewrite list_elem_of_In, in_flat_map. split.
  - intros (a & Ha & Hin). apply list_elem_of_In, list_elem_of_filter in Ha as [[Hty Hne] Ha].
    apply in_map_iff in Hin as (p & <- & Hp).
    apply list_elem_of_In, list_elem_of_filter in Hp as [Hkey Hp].
    split_and!; [done|by exists a|exists p; by split].
  - intros (Hne & (a & Ha & <- & Hty) & (p & Hp & Hkey)).
    exists a. split.
    + apply list_elem_of_In, list_elem_of_filter. by split.
    + apply in_map_iff. exists p. split; [done|].
      apply list_elem_of_In, list_elem_of_filter. by split.
Qed.

Lemma find_profile_Some (rows : list ProfileRow) (uid : string) (p : ProfileRow) :
  p ∈ rows → p_user_id p = uid →
  is_Some (List.find (λ r, bool_decide (p_user_id r = uid)) rows).
Proof.
  intros Hp Hkey. induction Hp as [p rows|p r rows _ IH]; cbn [List.find].
  - by rewrite bool_decide_eq_true_2.
  - destruct (bool_decide _); [done|by apply IH].
Qed.

(** X7. Every discovered helper is another user whose profile
    [db_load_profile] finds: the registration loop of the orchestrator
    never meets a helper without a profile. *)
Theorem helpers_have_profiles (d : Database) (base_user_id hid : string) :
  hid ∈ db_list_helper_agent_ids d base_user_id →
  hid ≠ base_user_id ∧ ∃ prof, db_load_profile d (VStr hid) = Ok (Some prof).
Proof.
  intros Hin. apply helper_ids_stored in Hin as (Hne & p & Hp & Hkey).
  split; [done|]. unfold db_load_profile. cbn [sqlite_bind_text].
  destruct (find_profile_Some _ _ _ Hp Hkey) as [row ->]. eauto.
Qed.

(** *** Primary keys *)

Lemma upsert_row_keys {A} (key : A → string) (row : A) (rows : list A) (k : string) :
  k ∈ map key (upsert_row (λ r, bool_decide (key r = key row)) row rows) →
  k ∈ map key rows ∨ k = key row.
Proof.
  induction rows as [|r rows IH]; cbn [upsert_row map].
  - rewrite elem_of_cons. intros [->|Hk]; [by right|by left].
  - case_bool_decide as Hr; cbn [map]; rewrite !elem_of_cons.
    + intros [->|Hk]; [by right|left; by right].
    + intros [->|Hk]; [left; by left|].
      destruct (IH Hk) as [?|?]; [left; by right|by right].
Qed.

Lemma upsert_row_NoDup {A} (key : A → string) (row : A) (rows : list A) :
  NoDup (map key rows) →
  NoDup (map key (upsert_row (λ r, bool_decide (key r = key row)) row rows)).
Proof.
  induction rows as [|r rows IH]; cbn [upsert_row map]; intros Hnd.
  - apply NoDup_singleton.
  - apply NoDup_cons in Hnd as [Hr Hnd].
    case_bool_decide as Hkey; cbn [map]; apply NoDup_cons.
    + by rewrite <- Hkey.
    + split; [|by apply IH].
      intros Hin. apply upsert_row_keys in Hin as [Hin|Heq]; [done|].
      by rewrite Heq in Hkey.
Qed.

(** X8. Both writes keep the primary keys of [agents] and [profiles]
    unique. *)
Theorem writes_keep_keys_unique (d : Database) (aid atype dname psummary : string)
    (user_id : string) (profile : Profile) :
  db_keys_unique d →
  db_keys_unique (db_upsert_agent d aid atype dname psummary) ∧
  ∀ d', db_upsert_profile d user_id profile = Ok d' → db_keys_unique d'.
Proof.
  intros [Hagents Hprofiles]. split.
  - split; [|done]. unfold db_upsert_agent. cbn [tbl_agents].
    by apply (upsert_row_NoDup a_agent_id
                {| a_agent_id := aid; a_agent_type := atype;
                   a_display_name := dname; a_personality_summary := psummary |}).
  - intros d'. unfold db_upsert_profile.
    destruct (forallb _ _); [|discriminate]. intros [= <-].
    split; [done|]. cbn [tbl_profiles].
    by apply (upsert_row_NoDup p_user_id
                {| p_user_id := user_id; p_name := prof_name profile;
                   p_personality := prof_personality profile;
                   p_values_text := prof_values profile |}).
Qed.

Lemma filter_none {A} (P : A → Prop) `{∀ x, Decision (P x)} (l : list A) :
  Forall (λ x, ¬ P x) l → filter P l = [].
Proof.
  induction 1 as [|x l Hx _ IH]; [done|]. by rewrite filter_cons_False.
Qed.

Lemma joined_profiles_at_most_one (rows : list ProfileRow) (k : string) :
  NoDup (map p_user_id rows) →
  (length (filter (λ p, k = p_user_id p) rows) ≤ 1)%nat.
Proof.
  induction rows as [|r rows IH]; cbn [map]; intros Hnd; [cbn; lia|].
  apply NoDup_cons in Hnd as [Hr Hnd].
  destruct (decide (k = p_user_id r)) as [->|Hne].
  - rewrite filter_cons_True by done. cbn [length].
    assert (filter (λ p, p_user_id r = p_user_id p) rows = []) as ->; [|cbn; lia].
    apply filter_none. apply Forall_forall. intros p Hp Heq.
    apply Hr. rewrite Heq. by apply (list_elem_of_fmap_2 p_user_id).
  - rewrite filter_cons_False by done. by apply IH.
Qed.

(** X9. When the primary keys are unique, discovery lists no id twice. *)
Theorem helper_ids_distinct (d : Database) (base_user_id : string) :
  db_keys_unique d → NoDup (db_list_helper_agent_ids d base_user_id).
Proof.
  intros [Hagents Hprofiles]. unfold db_list_helper_agent_ids.
  induction (tbl_agents d) as [|a rows IH]; [constructor|].
  cbn [map] in Hagents. apply NoDup_cons in Hagents as [Ha Hrows].
  specialize (IH Hrows).
  destruct (decide (a_agent_type a = "freigent" ∧ a_agent_id a ≠ base_user_id)).
  - rewrite filter_cons_True by done. cbn [flat_map].
    apply NoDup_app. split_and!; [| |done].
    + pose proof (joined_profiles_at_most_one (tbl_profiles d) (a_agent_id a) Hprofiles).
      destruct (filter _ (tbl_profiles d)) as [|p [|q l]]; cbn [map length] in *;
        [constructor|apply NoDup_singleton|lia].
    + intros k Hk Hin. apply list_elem_of_In, in_map_iff in Hk as (p & <- & _).
      apply list_elem_of_In, in_flat_map in Hin as (b & Hb & Hin).
      apply in_map_iff in Hin as (q & Hq & _).
      apply list_elem_of_In, list_elem_of_filter in Hb as [_ Hb].
      apply Ha. rewrite <- Hq. by apply (list_elem_of_fmap_2 a_agent_id).
  - by rewrite filter_cons_False by done.
Qed.

(** ** The client cache and the model's answer *)

(** X10. Once [get_or_create_freigent] has returned a client for a user,
    the client is in the cache, the entries of the other users are as
    before, and every later call for that user returns the same client
    without changing anything, even in a world where the API key is no
    longer set. *)
Theorem client_is_cached (user_id : string) (w w1 : World) (fr : RealJsonFreigent) :
  get_or_create_freigent user_id w = (Ok fr, w1) →
  FREIGENTS w1 !! user_id = Some fr ∧
  (∀ other, other ≠ user_id → FREIGENTS w1 !! other = FREIGENTS w !! other) ∧
  (∀ w2, FREIGENTS w2 !! user_id = Some fr →
         get_or_create_freigent user_id w2 = (Ok fr, w2)).
Proof.
  intros Hget. split_and!.
  - unfold get_or_create_freigent, RealJsonFreigent_init in Hget.
    destruct (FREIGENTS w !! user_id) as [fr0|] eqn:Hc.
    + by injection Hget as <- <-.
    + destruct (environ w !! "ANTHROPIC_API_KEY") as [key|]; [|discriminate].
      destruct (decide (key = "")); [discriminate|].
      injection Hget as <- <-. cbn [FREIGENTS set_FREIGENTS].
      by rewrite lookup_insert_eq.
  - intros other Hne.
    unfold get_or_create_freigent, RealJsonFreigent_init in Hget.
    destruct (FREIGENTS w !! user_id) as [fr0|] eqn:Hc.
    + by injection Hget as <- <-.
    + destruct (environ w !! "ANTHROPIC_API_KEY") as [key|]; [|discriminate].
      destruct (decide (key = "")); [discriminate|].
      injection Hget as <- <-. cbn [FREIGENTS set_FREIGENTS].
      by rewrite lookup_insert_ne.
  - intros w2 Hc. unfold get_or_create_freigent. by rewrite Hc.
Qed.

Lemma dict_get_set_same (d : pydict) (k : string) (v : pyval) :
  dict_get (dict_set d k v) k = Some v.
Proof.
  induction d as [|[k' v'] d IH]; cbn [dict_set dict_get].
  - by rewrite decide_True.
  - destruct (decide (k' = k)) as [->|Hne]; cbn [dict_get].
    + by rewrite decide_True.
    + by rewrite decide_False.
Qed.

Lemma dict_get_set_other (d : pydict) (k k0 : string) (v : pyval) :
  k0 ≠ k → dict_get (dict_set d k v) k0 = dict_get d k0.
Proof.
  intros Hne. induction d as [|[k' v'] d IH]; cbn [dict_set dict_get].
  - by rewrite decide_False.
  - destruct (decide (k' = k)) as [->|Hne']; cbn [dict_get].
    + by rewrite !decide_False by done.
    + destruct (decide (k' = k0)); [done|apply IH].
Qed.

Lemma py_setdefault_contains (v v' : pyval) (k : string) (x : pyval) :
  py_setdefault v k x = Some v' → py_contains v' k = Some true.
Proof.
  unfold py_setdefault.
  destruct (py_contains v k) as [[|]|] eqn:Hc; [by intros [= <-]| |done].
  destruct v; cbn [py_setitem]; try done. intros [= <-]. cbn [py_contains].
  by rewrite dict_get_set_same, bool_decide_eq_true_2.
Qed.

Lemma py_setdefault_keeps (v v' : pyval) (k k0 : string) (x : pyval) :
  py_setdefault v k x = Some v' →
  py_contains v k0 = Some true → py_contains v' k0 = Some true.
Proof.
  unfold py_setdefault.
  destruct (py_contains v k) as [[|]|] eqn:Hc; [by intros [= <-]| |done].
  destruct v; cbn [py_setitem]; try done. intros [= <-]. cbn [py_contains].
  intros [= Hk0]. apply bool_decide_eq_true_1 in Hk0. f_equal.
  apply bool_decide_eq_true_2.
  destruct (decide (k0 = k)) as [->|Hne].
  - by rewrite dict_get_set_same.
  - by rewrite dict_get_set_other.
Qed.

(** X11. Whatever the model produced, ["products" in result] and
    ["summary_for_user" in result] hold for the value
    [generate_recommendations_json] returns: a reply that raised, or whose
    JSON cannot take the two keys, is replaced by the fallback, which has
    both. *)
Theorem model_result_has_both_keys (ext : Externals) (n : nat)
    (self : RealJsonFreigent) (profile : Profile) (query : pyval) :
  py_contains (llm_result ext n self profile query) "products" = Some true ∧
  py_contains (llm_result ext n self profile query) "summary_for_user" = Some true.
Proof.
  unfold llm_result.
  destruct (anthropic ext n (model_name self) profile query) as [e|parsed];
    [by split|].
  unfold ensure_keys.
  destruct (py_setdefault parsed "products" (VList [])) as [p1|] eqn:H1; [|by split].
  destruct (py_setdefault p1 "summary_for_user" _) as [p2|] eqn:H2; [|by split].
  split.
  - eapply py_setdefault_keeps; [exact H2|]. by eapply py_setdefault_contains.
  - by eapply py_setdefault_contains.
Qed.

(** X12. A JSON object of the model is completed, never rewritten: every
    entry it had is kept, ["products"] defaults to the empty list and
    ["summary_for_user"] to a fixed sentence, and no other key appears. *)
Theorem model_object_is_completed (ext : Externals) (d : pydict) :
  ∃ d', ensure_keys ext (VDict d) = VDict d' ∧
    (∀ k v, dict_get d k = Some v → dict_get d' k = Some v) ∧
    (dict_get d "products" = None → dict_get d' "products" = Some (VList [])) ∧
    (dict_get d "summary_for_user" = None →
     dict_get d' "summary_for_user"
     = Some (VStr "No summary_for_user provided by the model.")) ∧
    (∀ k, k ≠ "products" → k ≠ "summary_for_user" → dict_get d' k = dict_get d k).
Proof.
  unfold ensure_keys, py_setdefault. cbn [py_contains py_setitem].
  destruct (dict_get d "products") as [p|] eqn:Hp;
    [rewrite bool_decide_eq_true_2 by done|rewrite bool_decide_eq_false_2 by (by intros [])];
    cbn [py_contains py_setitem].
  - destruct (dict_get d "summary_for_user") as [s|] eqn:Hs;
      [rewrite bool_decide_eq_true_2 by done
      |rewrite bool_decide_eq_false_2 by (by intros [])].
    + exists d. split_and!; try done.
    + eexists. split; [reflexivity|]. split_and!; try done.
      * intros k v Hk. rewrite dict_get_set_other; [done|congruence].
      * intros _. apply dict_get_set_same.
      * intros k _ Hk. by rewrite dict_get_set_other.
  - rewrite (dict_get_set_other d "products" "summary_for_user") by done.
    destruct (dict_get d "summary_for_user") as [s|] eqn:Hs;
      [rewrite bool_decide_eq_true_2 by done
      |rewrite bool_decide_eq_false_2 by (by intros [])].
    + eexists. split; [reflexivity|]. split_and!; try done.
      * intros k v Hk. rewrite dict_get_set_other; [done|congruence].
      * intros _. apply dict_get_set_same.
      * intros k Hk _. by rewrite dict_get_set_other.
    + eexists. split; [reflexivity|]. split_and!.
      * intros k v Hk. rewrite !dict_get_set_other; [done|congruence|congruence].
      * intros _. rewrite dict_get_set_other by done. apply dict_get_set_same.
      * intros _. apply dict_get_set_same.
      * intros k Hk1 Hk2. by rewrite !dict_get_set_other.
Qed.

(** ** The endpoints *)

Lemma upsert_row_elem {A} (same : A → bool) (row : A) (rows : list A) :
  row ∈ upsert_row same row rows.
Proof.
  induction rows as [|r rows IH]; cbn [upsert_row].
  - apply elem_of_cons. by left.
  - destruct (same r); apply elem_of_cons; [by left|by right].
Qed.

Lemma helper_ids_intro (d : Database) (base_user_id hid : string)
    (a : AgentRow) (p : ProfileRow) :
  hid ≠ base_user_id →
  a ∈ tbl_agents d → a_agent_id a = hid → a_agent_type a = "freigent" →
  p ∈ tbl_profiles d → p_user_id p = hid →
  hid ∈ db_list_helper_agent_ids d base_user_id.
Proof.
  intros Hne Ha <- Hty Hp Hkey.
  unfold db_list_helper_agent_ids. apply list_elem_of_In, in_flat_map.
  exists a. split.
  - apply list_elem_of_In, list_elem_of_filter. by split.
  - apply in_map_iff. exists p. split; [done|].
    apply list_elem_of_In, list_elem_of_filter. by split.
Qed.

Lemma db_load_profile_upsert_agent d aid atype dname psummary uid :
  db_load_profile (db_upsert_agent d aid atype dname psummary) uid
  = db_load_profile d uid.
Proof. reflexivity. Qed.

Lemma hub_register_agent_effect aid atype dname psummary w :
  ∃ w', hub_register_agent aid atype dname psummary w
        = (Ok {| agent_id := aid; agent_type := atype;
                 display_name := dname; personality_summary := psummary |}, w') ∧
    hub w' = (register_agent (hub w) aid atype dname psummary).2 ∧
    db w' = db w ∧ FREIGENTS w' = FREIGENTS w ∧
    trace w' = trace w ++ [EvRegister aid].
Proof. eexists. split; [reflexivity|]. by split_and!. Qed.

Lemma set_profile_Ok_inv user_id profile w out w' :
  freigent_set_profile user_id profile w = (Ok out, w') →
  ∃ d1 fr w1,
    db_upsert_profile (db w) user_id profile = Ok d1 ∧
    get_or_create_freigent user_id (set_db d1 w) = (Ok fr, w1) ∧
    out = [("status", VStr "ok"); ("user_id", VStr user_id)] ∧
    db w' = db_upsert_agent d1 user_id "freigent"
              (prof_name profile) (prof_personality profile) ∧
    hub w' = (register_agent (hub w) user_id "freigent"
                (prof_name profile) (prof_personality profile)).2 ∧
    FREIGENTS w' = FREIGENTS w1.
Proof.
  intros Hrun. unfold freigent_set_profile in Hrun.
  bind_inv Hrun as u1 wa Hup. unfold upsert_profile in Hup.
  destruct (db_upsert_profile (db w) user_id profile) as [d1|e] eqn:Hd1; [|discriminate].
  injection Hup as <- <-.
  bind_inv Hrun as fr w1 Hfr.
  pose proof (get_or_create_freigent_effect _ _ _ _ Hfr) as (Hhub & _ & Hdb & _).
  bind_inv Hrun as u2 wb Hag. unfold upsert_agent in Hag. injection Hag as <- <-.
  bind_inv Hrun as reg wc Hreg. unfold hub_register_agent in Hreg.
  injection Hreg as <- <-. injection Hrun as <- <-.
  exists d1, fr, w1. split_and!; try done.
  - cbn [db log set_hub set_db]. by rewrite Hdb.
  - cbn [hub log set_hub set_db]. by rewrite Hhub.
Qed.

(** X13. After [freigent_set_profile] has returned, the stored profile is
    the one [db_load_profile] returns, the user is registered in the hub
    as a ['freigent'] with the name and personality of the profile, no
    mailbox has lost a message, the client of the user is cached, and the
    user is discovered as a helper by every other user and never by
    itself. *)
Theorem set_profile_stores_and_registers (user_id : string) (profile : Profile)
    (w w' : World) (out : pydict) :
  freigent_set_profile user_id profile w = (Ok out, w') →
  out = [("status", VStr "ok"); ("user_id", VStr user_id)] ∧
  db_load_profile (db w') (VStr user_id) = Ok (Some profile) ∧
  get_agent (hub w') user_id
  = Some {| agent_id := user_id; agent_type := "freigent";
            display_name := prof_name profile;
            personality_summary := prof_personality profile |} ∧
  (∀ a, inbox_of (hub w') a = inbox_of (hub w) a) ∧
  is_Some (FREIGENTS w' !! user_id) ∧
  (∀ base, base ≠ user_id → user_id ∈ db_list_helper_agent_ids (db w') base) ∧
  user_id ∉ db_list_helper_agent_ids (db w') user_id.
Proof.
  intros Hrun.
  apply set_profile_Ok_inv in Hrun as (d1 & fr & w1 & Hd1 & Hfr & -> & Hdb & Hhub & Hc).
  split_and!; [done|..].
  - rewrite Hdb, db_load_profile_upsert_agent.
    by apply (db_upsert_profile_load (db w)).
  - rewrite Hhub. unfold get_agent, register_agent. cbn [snd agents].
    by rewrite lookup_insert_eq.
  - intros a. rewrite Hhub. apply inbox_of_register.
  - rewrite Hc. unfold get_or_create_freigent, RealJsonFreigent_init in Hfr.
    destruct (FREIGENTS (set_db d1 w) !! user_id) as [fr0|] eqn:Hcache.
    + injection Hfr as <- <-. by rewrite Hcache.
    + destruct (environ (set_db d1 w) !! "ANTHROPIC_API_KEY") as [key|]; [|discriminate].
      destruct (decide (key = "")); [discriminate|]. injection Hfr as <- <-.
      cbn [FREIGENTS set_FREIGENTS]. by rewrite lookup_insert_eq.
  - intros base Hne. rewrite Hdb.
    eapply helper_ids_intro; [done|apply upsert_row_elem|done|done| |].
    + cbn [db_upsert_agent tbl_profiles]. unfold db_upsert_profile in Hd1.
      destruct (forallb _ _); [|discriminate]. injection Hd1 as <-.
      cbn [tbl_profiles]. apply upsert_row_elem.
    + done.
  - intros Hin. by apply helper_ids_stored in Hin as [Hne _].
Qed.



Lemma get_or_create_freigent_caches user_id w fr w1 :
  get_or_create_freigent user_id w = (Ok fr, w1) → FREIGENTS w1 !! user_id = Some fr.
Proof.
  unfold get_or_create_freigent, RealJsonFreigent_init.
  destruct (FREIGENTS w !! user_id) as [fr0|] eqn:Hc.
  - by intros [= <- <-].
  - destruct (environ w !! "ANTHROPIC_API_KEY") as [key|]; [|discriminate].
    destruct (decide (key = "")); [discriminate|].
    intros [= <- <-]. cbn [FREIGENTS set_FREIGENTS]. by rewrite lookup_insert_eq.
Qed.

Lemma get_or_create_freigent_missing user_id w :
  FREIGENTS w !! user_id = None → api_key_missing w →
  get_or_create_freigent user_id w = (Raise missing_api_key, w).
Proof.
  intros Hc Hkey. unfold get_or_create_freigent, RealJsonFreigent_init.
  rewrite Hc. by destruct Hkey as [->| ->].
Qed.

Section MoreEndpoints.
Context (ext : Externals).

#[local] Arguments send_message : simpl never.
#[local] Arguments get_inbox : simpl never.
#[local] Arguments register_agent : simpl never.
#[local] Arguments inbox_of : simpl never.

(** X15. [freigent_search] for a user without a stored profile stops with
    the HTTP 400 error before anything else: no client is created, the
    model is not called, and the lookup is the only event. *)
Theorem search_missing_profile (user_id query : string) (w : World) :
  db_load_profile (db w) (VStr user_id) = Ok None →
  ∃ w',
    freigent_search ext user_id query w
    = (Raise (HTTPException 400
                ("No profile stored for user_id '" +:+ user_id +:+ "'. "
                 +:+ "Call POST /freigent/" +:+ user_id +:+ "/profile first.")), w') ∧
    trace w' = trace w ++ [EvDbLoadProfile (VStr user_id)] ∧
    FREIGENTS w' = FREIGENTS w ∧
    llm_calls w' = llm_calls w ∧
    hub w' = hub w.
Proof.
  intros Hload. eexists. split.
  - unfold freigent_search, bind, load_profile. rewrite Hload. reflexivity.
  - by split_and!.
Qed.

(** X16. After a successful [freigent_set_profile], [freigent_search] for
    the same user succeeds: it asks the model once, with exactly the
    profile that was set and with the cached client, returns the model's
    answer, and touches neither the hub nor the database. *)
Theorem set_profile_then_search (user_id query : string) (profile : Profile)
    (w w1 : World) (out : pydict) :
  freigent_set_profile user_id profile w = (Ok out, w1) →
  ∃ fr w2,
    FREIGENTS w1 !! user_id = Some fr ∧
    freigent_search ext user_id query w1
    = (Ok (llm_result ext (llm_calls w1) fr profile (VStr query)), w2) ∧
    trace w2 = trace w1 ++ [EvDbLoadProfile (VStr user_id);
                            EvGenerate (rjf_agent_id fr) profile (VStr query)] ∧
    hub w2 = hub w1 ∧ db w2 = db w1 ∧ FREIGENTS w2 = FREIGENTS w1.
Proof.
  intros Hset.
  apply set_profile_Ok_inv in Hset as (d1 & fr & wc & Hd1 & Hfr & _ & Hdb & _ & Hc).
  apply get_or_create_freigent_caches in Hfr. rewrite <- Hc in Hfr.
  assert (Hload : db_load_profile (db w1) (VStr user_id) = Ok (Some profile)).
  { rewrite Hdb, db_load_profile_upsert_agent. by apply (db_upsert_profile_load (db w)). }
  eexists fr, _. split; [done|]. split.
  - unfold freigent_search, bind at 1, load_profile. rewrite Hload.
    unfold bind at 1, get_or_create_freigent. cbn [FREIGENTS log]. rewrite Hfr.
    unfold generate_recommendations_json. cbn [llm_calls log]. reflexivity.
  - cbn [trace hub db FREIGENTS log tick_llm]. split_and!; try done.
    by rewrite <- app_assoc.
Qed.

(** X17. A message posted on [/nanda/a2a/send] is the last one returned by
    the next read of the recipient's inbox over HTTP, after the messages
    that were already waiting, with the id, the sender and the payload
    that were returned to the sender; the read leaves the inbox empty. *)
Theorem a2a_send_then_inbox (from to : string) (pl : pydict) (w : World) :
  ∃ sent w1 w2,
    nanda_a2a_send ext from to pl w = (Ok sent, w1) ∧
    sent = [("message_id", VStr (uuid4 ext (uuid_calls w)));
            ("from_agent_id", VStr from);
            ("to_agent_id", VStr to);
            ("payload", VDict pl)] ∧
    nanda_a2a_inbox to w1
    = (Ok (map message_dict (inbox_of (hub w) to) ++ [sent]), w2) ∧
    inbox_of (hub w2) to = [] ∧
    (∀ a, a ≠ to → inbox_of (hub w2) a = inbox_of (hub w) a).
Proof.
  destruct (hub_send_message_effect ext from to pl w)
    as (w1 & Hsend & _ & _ & _ & Hhub1 & Hin1).
  destruct (hub_get_inbox_effect to true w1) as (w2 & Hget & _ & _ & _ & _ & Hhub2).
  eexists _, w1, w2. split_and!.
  - unfold nanda_a2a_send. rewrite (bind_Ok _ _ _ _ _ Hsend). reflexivity.
  - reflexivity.
  - unfold nanda_a2a_inbox. rewrite (bind_Ok _ _ _ _ _ Hget). unfold ret.
    rewrite Hin1. unfold addressed_to. rewrite filter_cons_True, filter_nil by done.
    by rewrite map_app.
  - rewrite Hhub2. apply inbox_of_get_inbox_eq.
  - intros a Hne. rewrite Hhub2, inbox_of_get_inbox_ne by done.
    rewrite Hin1. unfold addressed_to.
    rewrite filter_cons_False, filter_nil by (cbn; congruence). by rewrite app_nil_r.
Qed.

End MoreEndpoints.

(** ** More on the worker *)

Section MoreWorker.
Context (ext : Externals).

#[local] Arguments send_message : simpl never.
#[local] Arguments get_inbox : simpl never.
#[local] Arguments register_agent : simpl never.
#[local] Arguments inbox_of : simpl never.

(** X18. The worker obtains its client before it reads the mailbox: when
    no client is cached and the API key is not set, the call fails with a
    [ValueError] and nothing has changed, so the pending messages are
    still in the mailbox. *)
Theorem worker_without_client_keeps_mailbox (worker : string) (max_messages : Z)
    (w : World) :
  FREIGENTS w !! worker = None →
  api_key_missing w →
  process_recommendation_requests_for_agent ext worker max_messages w
  = (Raise missing_api_key, w).
Proof.
  intros Hc Hkey. unfold process_recommendation_requests_for_agent.
  by rewrite (bind_Raise _ _ _ _ _ (get_or_create_freigent_missing worker w Hc Hkey)).
Qed.

(** X19. Messages that are not requests are consumed: when no examined
    message is a ['recommendation_request'], the worker returns one
    ['ignored'] summary for each, sends nothing, and leaves the hub as a
    plain drain of the mailbox leaves it, so every drained message,
    examined or not, is gone. *)
Theorem worker_consumes_other_messages (worker : string) (max_messages : Z)
    (w : World) :
  freigent_available w worker →
  let drained := inbox_of (hub w) worker in
  let examined := py_slice_to drained max_messages in
  Forall (λ m, is_request m = false) examined →
  ∃ w',
    process_recommendation_requests_for_agent ext worker max_messages w
    = (Ok (map (ignored_summary ext) examined), w') ∧
    trace w' = trace w ++ [EvGetInbox worker true drained] ∧
    hub w' = (get_inbox (hub w) worker true).2 ∧
    inbox_of (hub w') worker = [] ∧
    (∀ a, a ≠ worker → inbox_of (hub w') a = inbox_of (hub w) a).
Proof.
  intros Havail drained examined Hall.
  destruct (freigent_available_creates w worker Havail) as (fr & w1 & Hfr).
  destruct (get_or_create_freigent_effect _ _ _ _ Hfr) as (Hhub & Htr & _).
  destruct (hub_get_inbox_effect worker true w1)
    as (w2 & Heq2 & Htr2 & _ & _ & _ & Hhub2).
  rewrite Hhub in Heq2, Htr2, Hhub2. fold drained in Heq2, Htr2.
  exists w2. split_and!.
  - unfold process_recommendation_requests_for_agent.
    rewrite (bind_Ok _ _ _ _ _ Hfr), (bind_Ok _ _ _ _ _ Heq2).
    fold examined. by rewrite process_messages_ignored.
  - by rewrite Htr2, Htr.
  - done.
  - rewrite Hhub2. apply inbox_of_get_inbox_eq.
  - intros a Hne. rewrite Hhub2. by apply inbox_of_get_inbox_ne.
Qed.

(** X20. The first examined request whose profile lookup raises stops the
    worker with that error, after the mailbox has been drained and the
    messages examined before it have been handled: each request among
    those has got its one answer, and nothing else was sent, so neither
    the failing request nor a message behind it is answered.  No list of
    summaries is returned, and every drained message is gone: the mailbox
    of the worker holds only answers addressed to the worker itself, every
    other mailbox what it held plus the answers addressed to it. *)
Theorem worker_stops_on_failed_lookup (worker : string) (max_messages : Z)
    (w : World) (pre post : list A2AMessage) (m : A2AMessage) (e : exn) :
  py_slice_to (inbox_of (hub w) worker) max_messages = pre ++ m :: post →
  Forall (λ x, is_request x = true →
               ∃ o, db_load_profile (db w) (resolved_profile_id x) = Ok o) pre →
  is_request m = true →
  freigent_available w worker →
  db_load_profile (db w) (resolved_profile_id m) = Raise e →
  ∃ w' evs,
    process_recommendation_requests_for_agent ext worker max_messages w
    = (Raise e, w') ∧
    trace w' = trace w ++ EvGetInbox worker true (inbox_of (hub w) worker) :: evs ∧
    last evs = Some (EvDbLoadProfile (resolved_profile_id m)) ∧
    Forall2 (answers worker) (filter (λ x, is_request x) pre) (sends_of evs) ∧
    (∀ aid, inbox_of (hub w') aid
            = (if decide (aid = worker) then [] else inbox_of (hub w) aid)
              ++ addressed_to aid (sends_of evs)).
Proof.
  intros Hex Hpre Hreq Havail Hload.
  destruct (freigent_available_creates w worker Havail) as (fr & w1 & Hfr).
  destruct (get_or_create_freigent_effect _ _ _ _ Hfr) as (Hhub & Htr & Hdb & _).
  destruct (hub_get_inbox_effect worker true w1)
    as (w2 & Heq2 & Htr2 & Hdb2 & _ & _ & Hhub2).
  rewrite Hhub in Heq2, Htr2, Hhub2.
  destruct (process_messages_returns ext fr worker pre [] w2)
    as (outs & w3 & Hloop); [by rewrite Hdb2, Hdb|].
  pose proof (process_messages_effect ext fr worker pre [] w2 _ _ Hloop)
    as (evs & Htr3 & _ & Hdb3 & Hin3 & outs' & _ & _ & Hans).
  assert (Hload3 : db_load_profile (db w3) (resolved_profile_id m) = Raise e)
    by (by rewrite Hdb3, Hdb2, Hdb).
  exists (log (EvDbLoadProfile (resolved_profile_id m)) w3),
         (evs ++ [EvDbLoadProfile (resolved_profile_id m)]).
  split_and!.
  - unfold process_recommendation_requests_for_agent.
    rewrite (bind_Ok _ _ _ _ _ Hfr), (bind_Ok _ _ _ _ _ Heq2).
    rewrite Hex, process_messages_app, (bind_Ok _ _ _ _ _ Hloop).
    cbn [process_messages].
    by rewrite (bind_Raise _ _ _ _ _
                  (process_message_db_error ext fr worker m w3 e Hreq Hload3)).
  - cbn [trace log]. rewrite Htr3, Htr2, Htr. by rewrite <- !app_assoc.
  - apply last_snoc.
  - rewrite sends_of_app. cbn. by rewrite app_nil_r.
  - intros aid. cbn [hub log]. rewrite Hin3, Hhub2, sends_of_app. cbn.
    rewrite app_nil_r. f_equal.
    destruct (decide (aid = worker)) as [->|Hne].
    + apply inbox_of_get_inbox_eq.
    + by apply inbox_of_get_inbox_ne.
Qed.

(** X25. The worker has two ways to fail and no other: when its client is
    available and the profile lookup of every examined request answers
    (with a profile or with none), the call returns, with one summary for
    each examined message. *)
Theorem worker_returns_summaries (worker : string) (max_messages : Z) (w : World) :
  freigent_available w worker →
  let examined := py_slice_to (inbox_of (hub w) worker) max_messages in
  Forall (λ m, is_request m = true →
               ∃ o, db_load_profile (db w) (resolved_profile_id m) = Ok o) examined →
  ∃ outs w',
    process_recommendation_requests_for_agent ext worker max_messages w = (Ok outs, w') ∧
    length outs = length examined.
Proof.
  intros Havail examined Hall.
  destruct (freigent_available_creates w worker Havail) as (fr & w1 & Hfr).
  destruct (get_or_create_freigent_effect _ _ _ _ Hfr) as (Hhub & _ & Hdb & _).
  destruct (hub_get_inbox_effect worker true w1) as (w2 & Heq2 & _ & Hdb2 & _).
  destruct (process_messages_returns ext fr worker examined [] w2)
    as (outs & w' & Hloop); [by rewrite Hdb2, Hdb|].
  exists outs, w'. split.
  - unfold process_recommendation_requests_for_agent.
    rewrite (bind_Ok _ _ _ _ _ Hfr), (bind_Ok _ _ _ _ _ Heq2).
    by rewrite Hhub.
  - apply process_messages_effect in Hloop as (evs & _ & _ & _ & _ & outs' & -> & Hids & _).
    apply (f_equal length) in Hids. by rewrite !length_map in Hids.
Qed.

End MoreWorker.

(** ** More on the orchestrator *)

Section MoreOrchestrator.
Context (ext : Externals).

#[local] Arguments send_message : simpl never.
#[local] Arguments get_inbox : simpl never.
#[local] Arguments register_agent : simpl never.
#[local] Arguments inbox_of : simpl never.

(** *** The directory is only written by registrations *)

Lemma hub_send_message_agents from to pl w w' m :
  hub_send_message ext from to pl w = (Ok m, w') → agents (hub w') = agents (hub w).
Proof. unfold hub_send_message. by intros [= <- <-]. Qed.

Lemma process_message_agents fr worker m w r w' :
  process_message ext fr worker m w = (r, w') → agents (hub w') = agents (hub w).
Proof.
  destruct (is_request m) eqn:Hreq.
  - destruct (db_load_profile (db w) (resolved_profile_id m)) as [[prof|]|e] eqn:Hload.
    + rewrite (process_message_found ext fr worker m w prof Hreq Hload). by intros [= <- <-].
    + rewrite (process_message_missing ext fr worker m w Hreq Hload). by intros [= <- <-].
    + rewrite (process_message_db_error ext fr worker m w e Hreq Hload). by intros [= <- <-].
  - rewrite (process_message_ignored ext fr worker m w Hreq). by intros [= <- <-].
Qed.

Lemma process_messages_agents fr worker ms : ∀ acc w r w',
  process_messages ext fr worker ms acc w = (r, w') → agents (hub w') = agents (hub w).
Proof.
  induction ms as [|m ms IH]; intros acc w r w' Hrun; cbn [process_messages] in Hrun.
  - by injection Hrun as <- <-.
  - unfold bind in Hrun.
    destruct (process_message ext fr worker m w) as [[out|e] w1] eqn:Hm.
    + apply process_message_agents in Hm. apply IH in Hrun. by rewrite Hrun.
    + injection Hrun as <- <-. by apply process_message_agents in Hm.
Qed.

Lemma worker_agents worker max_messages w r w' :
  process_recommendation_requests_for_agent ext worker max_messages w = (r, w') →
  agents (hub w') = agents (hub w).
Proof.
  unfold process_recommendation_requests_for_agent, bind at 1.
  destruct (get_or_create_freigent worker w) as [[fr|e] w1] eqn:Hfr.
  - apply get_or_create_freigent_effect in Hfr as (Hhub & _).
    unfold bind at 1. destruct (hub_get_inbox_effect worker true w1)
      as (w2 & -> & _ & _ & _ & _ & Hhub2).
    intros Hrun. apply process_messages_agents in Hrun.
    by rewrite Hrun, Hhub2, <- Hhub.
  - apply get_or_create_freigent_effect in Hfr as (Hhub & _).
    intros [= <- <-]. by rewrite Hhub.
Qed.

Lemma send_requests_agents user_id query helper_ids : ∀ w r w',
  send_requests ext user_id query helper_ids w = (r, w') →
  agents (hub w') = agents (hub w).
Proof.
  induction helper_ids as [|hid rest IH]; intros w r w' Hrun; cbn [send_requests] in Hrun.
  - by injection Hrun as <- <-.
  - destruct (hub_send_message_effect ext user_id hid (request_payload user_id query) w)
      as (w1 & Heq & _).
    rewrite (bind_Ok _ _ _ _ _ Heq) in Hrun. apply IH in Hrun.
    apply hub_send_message_agents in Heq. by rewrite Hrun.
Qed.

Lemma dispatch_helpers_agents helper_ids : ∀ w r w',
  dispatch_helpers ext helper_ids w = (r, w') → agents (hub w') = agents (hub w).
Proof.
  induction helper_ids as [|hid rest IH]; intros w r w' Hrun; cbn [dispatch_helpers] in Hrun.
  - by injection Hrun as <- <-.
  - unfold bind in Hrun.
    destruct (process_recommendation_requests_for_agent ext hid 10 w)
      as [[outs|e] w1] eqn:Hw.
    + apply worker_agents in Hw. apply IH in Hrun. by rewrite Hrun.
    + injection Hrun as <- <-. by apply worker_agents in Hw.
Qed.

Lemma register_one_effect (h : string) (oprof : option Profile) (w wb : World) (u : unit) :
  match oprof with
  | Some prof =>
      _ <~ hub_register_agent h "freigent" (prof_name prof) (prof_personality prof) ;;
      ret tt
  | None => ret tt
  end w = (Ok u, wb) →
  db wb = db w ∧
  (∀ a, a ≠ h → agents (hub wb) !! a = agents (hub w) !! a) ∧
  (∀ prof, oprof = Some prof →
     agents (hub wb) !! h
     = Some {| agent_id := h; agent_type := "freigent";
               display_name := prof_name prof;
               personality_summary := prof_personality prof |}).
Proof.
  destruct oprof as [p|].
  - destruct (hub_register_agent_effect h "freigent" (prof_name p) (prof_personality p) w)
      as (w1 & Heq & Hhub & Hdb & _).
    rewrite (bind_Ok _ _ _ _ _ Heq). intros [= <- <-]. rewrite Hhub.
    unfold register_agent. cbn [snd agents]. split_and!; [done| |].
    + intros a Hne. by rewrite lookup_insert_ne.
    + intros prof [= <-]. by rewrite lookup_insert_eq.
  - intros [= <- <-]. by split_and!.
Qed.

Lemma register_helpers_agents_other helper_ids : ∀ w w1,
  register_helpers helper_ids w = (Ok tt, w1) →
  ∀ a, a ∉ helper_ids → agents (hub w1) !! a = agents (hub w) !! a.
Proof.
  induction helper_ids as [|h rest IH]; intros w w1 Hrun a Hnot;
    cbn [register_helpers] in Hrun.
  - by injection Hrun as <-.
  - apply not_elem_of_cons in Hnot as [Hne Hnot].
    bind_inv Hrun as oprof wa Ha. unfold load_profile in Ha. injection Ha as _ <-.
    bind_inv Hrun as u wb Hb.
    apply register_one_effect in Hb as (_ & Hother & _).
    rewrite (IH _ _ Hrun a Hnot). by rewrite Hother.
Qed.

(** The registration loop registers every helper whose profile loads,
    with the fields of that profile. *)
Lemma register_helpers_agents helper_ids : ∀ w w1,
  register_helpers helper_ids w = (Ok tt, w1) →
  ∀ hid prof, hid ∈ helper_ids →
    db_load_profile (db w) (VStr hid) = Ok (Some prof) →
    agents (hub w1) !! hid
    = Some {| agent_id := hid; agent_type := "freigent";
              display_name := prof_name prof;
              personality_summary := prof_personality prof |}.
Proof.
  induction helper_ids as [|h rest IH]; intros w w1 Hrun hid prof Hin Hload.
  - by apply elem_of_nil in Hin.
  - cbn [register_helpers] in Hrun.
    bind_inv Hrun as oprof wa Ha. unfold load_profile in Ha. injection Ha as Ho <-.
    bind_inv Hrun as u wb Hb.
    apply register_one_effect in Hb as (Hdb & _ & Hreg).
    destruct (decide (hid ∈ rest)) as [Hrest|Hnot].
    + eapply IH; [exact Hrun|done|]. by rewrite Hdb.
    + apply elem_of_cons in Hin as [->|Hin]; [|done].
      rewrite Hload in Ho.
      rewrite (register_helpers_agents_other _ _ _ Hrun h Hnot).
      apply Hreg. congruence.
Qed.

(** *** A run that completes, world by world *)

Lemma auto_search_Ok_worlds user_id query w resp w' :
  freigent_auto_search ext user_id query w = (Ok resp, w') →
  let helper_ids := db_list_helper_agent_ids (db w) user_id in
  ∃ profile fr wf w1 w2 w3,
    db_load_profile (db w) (VStr user_id) = Ok (Some profile) ∧
    get_or_create_freigent user_id (log (EvDbLoadProfile (VStr user_id)) w) = (Ok fr, wf) ∧
    register_helpers helper_ids
      (log (EvDbListHelpers user_id)
         (log (EvGenerate (rjf_agent_id fr) profile (VStr query)) (tick_llm wf)))
    = (Ok tt, w1) ∧
    send_requests ext user_id query helper_ids w1 = (Ok tt, w2) ∧
    dispatch_helpers ext helper_ids w2 = (Ok tt, w3) ∧
    hub w' = (get_inbox (hub w3) user_id true).2 ∧
    helper_agent_ids resp = helper_ids ∧
    VDict (base_result resp) = llm_result ext (llm_calls wf) fr profile (VStr query) ∧
    map agent_and_result (helper_results resp)
    = map sender_and_result
        (filter (λ m, is_response m) (inbox_of (hub w3) user_id)).
Proof.
  intros Hrun helper_ids. unfold freigent_auto_search in Hrun.
  bind_inv Hrun as oprof wp Hload. unfold load_profile in Hload.
  injection Hload as Hprof <-.
  destruct oprof as [profile|]; [|discriminate].
  bind_inv Hrun as fr wf Hfr.
  pose proof (get_or_create_freigent_effect _ _ _ _ Hfr) as (_ & _ & Hdb1 & _).
  bind_inv Hrun as base_v wg Hgen.
  unfold generate_recommendations_json in Hgen. injection Hgen as <- <-.
  bind_inv Hrun as ids wl Hlist.
  unfold list_helper_agent_ids in Hlist. injection Hlist as <- <-.
  cbn [db log tick_llm] in Hrun. rewrite Hdb1 in Hrun. cbn [db log] in Hrun.
  fold helper_ids in Hrun.
  bind_inv Hrun as u1 wr Hreg. destruct u1.
  bind_inv Hrun as u2 ws Hsend. destruct u2.
  bind_inv Hrun as u3 wd Hdisp. destruct u3.
  bind_inv Hrun as incoming wi Hinbox.
  destruct (hub_get_inbox_effect user_id true wd) as (wi' & Heq & _ & _ & _ & _ & Hhubi).
  rewrite Heq in Hinbox. injection Hinbox as <- <-.
  bind_inv Hrun as base_products wb Hbase.
  bind_inv Hrun as acc wa Hfan. destruct acc as [hrs merged]. cbn [fst snd] in Hrun.
  apply fan_in_Ok in Hfan as (-> & new & Hhrs & Hmap & Hmerged).
  cbn [app] in Hhrs. subst hrs.
  match type of Hrun with
  | context [as_dict ?v] => destruct (as_dict v) as [base|] eqn:Hb; [|discriminate]
  end.
  destruct (as_dict_list merged) as [products|] eqn:Hp; [|discriminate].
  injection Hrun as <- <-.
  apply as_dict_Some in Hb. rewrite Hb in Hbase.
  cbn [py_method_get] in Hbase. injection Hbase as <- <-.
  exists profile, fr, wf, wr, ws, wd. by split_and!.
Qed.

(** X21. With a stored base profile but no cached client and no API key,
    the run fails with a [ValueError] right after the lookup of the base
    profile: the model is not called, no peer is discovered, and the hub
    is untouched. *)
Theorem auto_search_without_client (user_id query : string) (w : World)
    (profile : Profile) :
  db_load_profile (db w) (VStr user_id) = Ok (Some profile) →
  FREIGENTS w !! user_id = None →
  api_key_missing w →
  ∃ w',
    freigent_auto_search ext user_id query w = (Raise missing_api_key, w') ∧
    trace w' = trace w ++ [EvDbLoadProfile (VStr user_id)] ∧
    hub w' = hub w ∧
    llm_calls w' = llm_calls w ∧
    FREIGENTS w' = FREIGENTS w.
Proof.
  intros Hload Hc Hkey.
  exists (log (EvDbLoadProfile (VStr user_id)) w). split; [|by split_and!].
  unfold freigent_auto_search, bind at 1, load_profile. rewrite Hload.
  by rewrite (bind_Raise _ _ _ _ _
                (get_or_create_freigent_missing user_id
                   (log (EvDbLoadProfile (VStr user_id)) w) Hc Hkey)).
Qed.

(** X22. A run that completes leaves the mailbox of the base user empty:
    everything that waited there, responses or not, has been consumed. *)
Theorem auto_search_empties_base_mailbox (user_id query : string) (w w' : World)
    (resp : AutoSearchResponse) :
  freigent_auto_search ext user_id query w = (Ok resp, w') →
  inbox_of (hub w') user_id = [] ∧ inboxes (hub w') !! user_id = Some [].
Proof.
  intros Hrun.
  apply auto_search_Ok_worlds in Hrun
    as (profile & fr & wf & w1 & w2 & w3 & _ & _ & _ & _ & _ & Hhub & _).
  rewrite Hhub. split; [apply inbox_of_get_inbox_eq|].
  unfold get_inbox. cbn [snd inboxes]. by rewrite lookup_insert_eq.
Qed.

(** X23. A run that completes has registered every discovered helper in
    the hub, as a ['freigent'] with the name and the personality of its
    stored profile. *)
Theorem auto_search_registers_helpers (user_id query : string) (w w' : World)
    (resp : AutoSearchResponse) (hid : string) :
  freigent_auto_search ext user_id query w = (Ok resp, w') →
  hid ∈ helper_agent_ids resp →
  ∃ prof,
    db_load_profile (db w) (VStr hid) = Ok (Some prof) ∧
    get_agent (hub w') hid
    = Some {| agent_id := hid; agent_type := "freigent";
              display_name := prof_name prof;
              personality_summary := prof_personality prof |}.
Proof.
  intros Hrun Hin.
  apply auto_search_Ok_worlds in Hrun
    as (profile & fr & wf & w1 & w2 & w3 & _ & Hfr & Hreg & Hsend & Hdisp & Hhub & Hids & _).
  rewrite Hids in Hin.
  pose proof Hin as Hstored. apply helper_ids_stored in Hstored as (_ & p & Hp & Hkey).
  destruct (find_profile_Some _ _ _ Hp Hkey) as [row Hrow].
  apply get_or_create_freigent_effect in Hfr as (_ & _ & Hdb & _).
  eexists. split.
  - unfold db_load_profile. cbn [sqlite_bind_text]. rewrite Hrow. reflexivity.
  - unfold get_agent. rewrite Hhub.
    change (agents (get_inbox (hub w3) user_id true).2) with (agents (hub w3)).
    rewrite (dispatch_helpers_agents _ _ _ _ Hdisp),
            (send_requests_agents _ _ _ _ _ _ Hsend).
    apply (register_helpers_agents _ _ _ Hreg hid); [done|].
    cbn [db log tick_llm]. rewrite Hdb. cbn [db log].
    unfold db_load_profile. cbn [sqlite_bind_text]. by rewrite Hrow.
Qed.

(** *** Every helper answers *)

Lemma request_payload_read (m : A2AMessage) (user_id query : string) :
  payload m = request_payload user_id query →
  is_request m = true ∧
  resolved_profile_id m = VStr user_id ∧
  request_query m = VStr query.
Proof.
  intros Hpl. unfold is_request, resolved_profile_id, request_query.
  rewrite Hpl. by split_and!.
Qed.

Lemma send_requests_inboxes user_id query helper_ids : ∀ w w2,
  NoDup helper_ids →
  send_requests ext user_id query helper_ids w = (Ok tt, w2) →
  db w2 = db w ∧
  (∀ aid, aid ∉ helper_ids → inbox_of (hub w2) aid = inbox_of (hub w) aid) ∧
  (∀ hid, hid ∈ helper_ids →
     ∃ m, inbox_of (hub w2) hid = inbox_of (hub w) hid ++ [m] ∧
          from_agent_id m = user_id ∧
          payload m = request_payload user_id query).
Proof.
  induction helper_ids as [|h rest IH]; intros w w2 Hnd Hrun; cbn [send_requests] in Hrun.
  - injection Hrun as <-. split_and!; [done|done|].
    intros hid Hin. by apply elem_of_nil in Hin.
  - apply NoDup_cons in Hnd as [Hh Hnd].
    destruct (hub_send_message_effect ext user_id h (request_payload user_id query) w)
      as (w1 & Heq & _ & Hdb1 & _ & _ & Hin1).
    rewrite (bind_Ok _ _ _ _ _ Heq) in Hrun.
    destruct (IH w1 w2 Hnd Hrun) as (Hdb & Hother & Hsent).
    split_and!.
    + by rewrite Hdb.
    + intros aid Hnot. apply not_elem_of_cons in Hnot as [Hne Hnot].
      rewrite (Hother aid Hnot), Hin1. unfold addressed_to.
      rewrite filter_cons_False, filter_nil by (cbn; congruence).
      by rewrite app_nil_r.
    + intros hid Hin. apply elem_of_cons in Hin as [->|Hin].
      * rewrite (Hother h Hh), Hin1. unfold addressed_to.
        rewrite filter_cons_True, filter_nil by done. eauto.
      * destruct (Hsent hid Hin) as (m & Hm & Hfrom & Hpl).
        exists m. split_and!; [|done|done].
        rewrite Hm, Hin1. unfold addressed_to.
        rewrite filter_cons_False, filter_nil; [by rewrite app_nil_r|].
        cbn. intros <-. done.
Qed.

(** The worker on a mailbox that holds one request whose profile is
    stored: the mailbox is emptied and one response goes to the
    requester. *)
Lemma worker_single_request worker w m prof outs w' :
  inbox_of (hub w) worker = [m] →
  is_request m = true →
  db_load_profile (db w) (resolved_profile_id m) = Ok (Some prof) →
  process_recommendation_requests_for_agent ext worker 10 w = (Ok outs, w') →
  ∃ reply n fr,
    from_agent_id reply = worker ∧
    to_agent_id reply = from_agent_id m ∧
    payload reply
    = reply_payload m (request_query m) (resolved_profile_id m)
        (llm_result ext n fr prof (request_query m)) ∧
    db w' = db w ∧
    ∀ aid, inbox_of (hub w') aid
           = (if decide (aid = worker) then [] else inbox_of (hub w) aid)
             ++ addressed_to aid [reply].
Proof.
  intros Hinbox Hreq Hload Hrun.
  unfold process_recommendation_requests_for_agent in Hrun.
  bind_inv Hrun as fr w1 Hfr.
  apply get_or_create_freigent_effect in Hfr as (Hhub & _ & Hdb & _).
  destruct (hub_get_inbox_effect worker true w1)
    as (w2 & Heq2 & _ & Hdb2 & _ & _ & Hhub2).
  rewrite (bind_Ok _ _ _ _ _ Heq2) in Hrun.
  rewrite Hhub, Hinbox in Hrun.
  change (py_slice_to [m] 10) with [m] in Hrun. cbn [process_messages] in Hrun.
  assert (Hload2 : db_load_profile (db w2) (resolved_profile_id m) = Ok (Some prof))
    by (by rewrite Hdb2, Hdb).
  pose proof (process_message_found ext fr worker m w2 prof Hreq Hload2) as Hm.
  cbv zeta in Hm.
  match type of Hm with
  | context [hub_send_message ext ?f ?t ?pl ?w0] =>
      destruct (hub_send_message_effect ext f t pl w0)
        as (w3 & Heq3 & _ & Hdb3 & _ & _ & Hin3);
      rewrite Heq3 in Hm; cbn [snd] in Hm;
      exists (new_message ext w0 f t pl), (llm_calls w2), fr
  end.
  rewrite (bind_Ok _ _ _ _ _ Hm) in Hrun. injection Hrun as _ <-.
  split_and!; [done|done|done| |].
  - rewrite Hdb3. cbn [db log tick_llm]. by rewrite Hdb2, Hdb.
  - intros aid. rewrite Hin3. cbn [hub log tick_llm]. rewrite Hhub2, Hhub. f_equal.
    destruct (decide (aid = worker)) as [->|Hne].
    + apply inbox_of_get_inbox_eq.
    + by apply inbox_of_get_inbox_ne.
Qed.

Lemma dispatch_helpers_replies user_id query profile helper_ids : ∀ w w3,
  NoDup helper_ids →
  user_id ∉ helper_ids →
  db_load_profile (db w) (VStr user_id) = Ok (Some profile) →
  (∀ hid, hid ∈ helper_ids →
     ∃ m, inbox_of (hub w) hid = [m] ∧ from_agent_id m = user_id ∧
          payload m = request_payload user_id query) →
  dispatch_helpers ext helper_ids w = (Ok tt, w3) →
  ∃ replies,
    inbox_of (hub w3) user_id = inbox_of (hub w) user_id ++ replies ∧
    Forall2 (answer_for ext profile query) helper_ids replies.
Proof.
  induction helper_ids as [|h rest IH]; intros w w3 Hnd Hbase Hload Hreqs Hrun;
    cbn [dispatch_helpers] in Hrun.
  - injection Hrun as <-. exists []. rewrite app_nil_r. split; [done|constructor].
  - apply NoDup_cons in Hnd as [Hh Hnd].
    apply not_elem_of_cons in Hbase as [Hne Hbase].
    bind_inv Hrun as outs w1 Hw.
    destruct (Hreqs h) as (m & Hm & Hfrom & Hpl); [apply elem_of_cons; by left|].
    destruct (request_payload_read m user_id query Hpl) as (Hreq & Hpid & Hq).
    assert (Hloadm : db_load_profile (db w) (resolved_profile_id m) = Ok (Some profile))
      by (by rewrite Hpid).
    destruct (worker_single_request h w m profile outs w1 Hm Hreq Hloadm Hw)
      as (reply & n & fr & Hrfrom & Hrto & Hrpl & Hdb & Hin).
    rewrite Hfrom in Hrto.
    destruct (IH w1 w3 Hnd Hbase) as (replies & Hinbox & Hall); [by rewrite Hdb| |done|].
    + intros hid Hhid. destruct (Hreqs hid) as (m' & Hm' & Hfrom' & Hpl');
        [apply elem_of_cons; by right|].
      exists m'. split_and!; [|done|done].
      rewrite Hin. rewrite decide_False by (intros ->; done). rewrite Hm'.
      unfold addressed_to. rewrite filter_cons_False, filter_nil; [done|].
      rewrite Hrto. intros ->. done.
    + exists (reply :: replies). split.
      * rewrite Hinbox, Hin. rewrite decide_False by done.
        unfold addressed_to. rewrite filter_cons_True, filter_nil by done.
        by rewrite <- app_assoc.
      * constructor; [|done]. split_and!; [done| |].
        -- unfold is_response. by rewrite Hrpl.
        -- exists n, fr. unfold response_result. rewrite Hrpl, Hq. reflexivity.
Qed.

Lemma results_of_answers profile query helper_ids :
  ∀ (replies : list A2AMessage) (hrs : list HelperResult),
  Forall2 (answer_for ext profile query) helper_ids replies →
  map agent_and_result hrs
  = map sender_and_result (filter (λ m, is_response m) replies) →
  Forall2 (λ hid hr, hr_agent_id hr = hid ∧
                     ∃ n fr, VDict (hr_result hr)
                             = llm_result ext n fr profile (VStr query))
    helper_ids hrs.
Proof.
  induction helper_ids as [|h rest IH]; intros replies hrs Hall Hmap.
  - apply Forall2_nil_inv_l in Hall as ->. cbn in Hmap.
    apply map_eq_nil in Hmap as ->. constructor.
  - apply Forall2_cons_inv_l in Hall as (r & replies' & (Hfrom & Hresp & n & fr & Hres) & Hall & ->).
    rewrite filter_cons_True in Hmap by (by rewrite Hresp).
    destruct hrs as [|hr hrs]; [discriminate|]. cbn [map] in Hmap.
    injection Hmap as Hagent Hresult Hmap.
    constructor.
    + split; [congruence|]. exists n, fr. congruence.
    + by eapply IH.
Qed.

(** X24. End to end: when the mailboxes of the base user and of the
    discovered helpers are empty at the start and no helper is listed
    twice, a run that completes has one helper result for each discovered
    helper, in discovery order, and each of these results is an answer of
    the model for the profile of the base user and the query of the run:
    a helper is asked with the requester's profile, not with its own. *)
Theorem auto_search_every_helper_answers (user_id query : string) (w w' : World)
    (resp : AutoSearchResponse) :
  freigent_auto_search ext user_id query w = (Ok resp, w') →
  NoDup (db_list_helper_agent_ids (db w) user_id) →
  inbox_of (hub w) user_id = [] →
  (∀ hid, hid ∈ db_list_helper_agent_ids (db w) user_id → inbox_of (hub w) hid = []) →
  ∃ profile,
    db_load_profile (db w) (VStr user_id) = Ok (Some profile) ∧
    helper_agent_ids resp = db_list_helper_agent_ids (db w) user_id ∧
    Forall2 (λ hid hr, hr_agent_id hr = hid ∧
                       ∃ n fr, VDict (hr_result hr)
                               = llm_result ext n fr profile (VStr query))
      (helper_agent_ids resp) (helper_results resp).
Proof.
  intros Hrun Hnd Hbase Hhelpers.
  apply auto_search_Ok_worlds in Hrun
    as (profile & fr & wf & w1 & w2 & w3 & Hload & Hfr & Hreg & Hsend & Hdisp
        & _ & Hids & _ & Hmap).
  exists profile. split_and!; [done|done|]. rewrite Hids.
  apply get_or_create_freigent_effect in Hfr as (Hhub0 & _ & Hdb0 & _).
  match type of Hreg with
  | register_helpers _ ?w0 = _ =>
      destruct (register_helpers_effect (db_list_helper_agent_ids (db w) user_id) w0)
        as (w1' & evs & Hreg' & _ & _ & Hdb1 & _ & Hin1)
  end.
  rewrite Hreg in Hreg'. injection Hreg' as <-.
  cbn [db hub log tick_llm] in Hdb1, Hin1. rewrite Hdb0 in Hdb1. rewrite Hhub0 in Hin1.
  cbn [db hub log] in Hdb1, Hin1.
  destruct (send_requests_inboxes _ _ _ _ _ Hnd Hsend) as (Hdb2 & Hother & Hsent).
  assert (Hnotin : user_id ∉ db_list_helper_agent_ids (db w) user_id).
  { intros Hin. by apply helper_ids_stored in Hin as [Hne _]. }
  destruct (dispatch_helpers_replies user_id query profile _ w2 w3 Hnd Hnotin)
    as (replies & Hinbox & Hall); [by rewrite Hdb2, Hdb1| |done|].
  - intros hid Hin. destruct (Hsent hid Hin) as (m & Hm & Hfrom & Hpl).
    exists m. split_and!; [|done|done].
    by rewrite Hm, Hin1, (Hhelpers hid Hin).
  - rewrite Hinbox, (Hother user_id Hnotin), Hin1, Hbase in Hmap. cbn [app] in Hmap.
    by eapply results_of_answers.
Qed.

End MoreOrchestrator.

(** ** The added properties on concrete data *)

Lemma upsert_then_load_profile_witness :
  ∃ d', db_upsert_profile demo_db "u1" dee = Ok d' ∧
        db_load_profile d' (VStr "u1") = Ok (Some dee).
Proof.
  apply (upsert_then_load_profile demo_db "u1" dee).
  repeat constructor; discriminate.
Defined.

Lemma upsert_profile_other_users_witness :
  ∃ d', db_upsert_profile demo_db "u2" dee = Ok d' ∧
        db_load_profile d' (VStr "u1") = Ok (Some ada).
Proof.
  eexists. split; [reflexivity|].
  eapply eq_trans;
    [eapply proj1, (upsert_profile_other_users demo_db _ "u2" "u1" dee);
       [reflexivity|discriminate]
    |reflexivity].
Defined.

Lemma helpers_have_profiles_witness :
  "u3" ≠ "u1" ∧ ∃ prof, db_load_profile demo_db (VStr "u3") = Ok (Some prof).
Proof.
  apply (helpers_have_profiles demo_db "u1" "u3").
  assert (db_list_helper_agent_ids demo_db "u1" = ["u2"; "u3"]) as -> by reflexivity.
  apply elem_of_cons. right. apply elem_of_cons. by left.
Defined.

Lemma writes_keep_keys_unique_witness :
  db_keys_unique (db_upsert_agent demo_db "u4" "freigent" "Dee" "curious") ∧
  ∀ d', db_upsert_profile demo_db "u1" dee = Ok d' → db_keys_unique d'.
Proof.
  apply (writes_keep_keys_unique demo_db "u4" "freigent" "Dee" "curious" "u1" dee).
  split; apply (bool_decide_unpack _); vm_compute; exact I.
Defined.

Lemma helper_ids_distinct_witness : NoDup (db_list_helper_agent_ids demo_db "u1").
Proof.
  apply (helper_ids_distinct demo_db "u1").
  split; apply (bool_decide_unpack _); vm_compute; exact I.
Defined.

Lemma client_is_cached_witness :
  ∃ fr w1,
    get_or_create_freigent "u1" fresh_world = (Ok fr, w1) ∧
    FREIGENTS w1 !! "u1" = Some fr ∧
    get_or_create_freigent "u1" (set_db solo_db w1) = (Ok fr, set_db solo_db w1).
Proof.
  eexists _, _. split; [reflexivity|].
  match goal with
  | |- context [FREIGENTS ?w1 !! "u1" = Some ?fr] =>
      destruct (client_is_cached "u1" fresh_world w1 fr eq_refl) as (Hc & _ & Hagain)
  end.
  split; [exact Hc|]. apply Hagain. exact Hc.
Defined.

Lemma set_profile_stores_and_registers_witness :
  ∃ out w',
    freigent_set_profile "u4" dee fresh_world = (Ok out, w') ∧
    db_load_profile (db w') (VStr "u4") = Ok (Some dee) ∧
    "u4" ∈ db_list_helper_agent_ids (db w') "u1".
Proof.
  assert (Hset : ∃ out w', freigent_set_profile "u4" dee fresh_world = (Ok out, w'))
    by (eexists _, _; vm_compute; reflexivity).
  destruct Hset as (out & w' & Hset).
  destruct (set_profile_stores_and_registers "u4" dee fresh_world w' out Hset)
    as (_ & Hload & _ & _ & _ & Hhelper & _).
  exists out, w'. split_and!; [exact Hset|exact Hload|].
  apply Hhelper. discriminate.
Defined.


Lemma search_missing_profile_witness :
  ∃ w',
    freigent_search demo_ext "u8" "tea" fresh_world
    = (Raise (HTTPException 400
                "No profile stored for user_id 'u8'. Call POST /freigent/u8/profile first."),
       w') ∧
    trace w' = [EvDbLoadProfile (VStr "u8")].
Proof.
  destruct (search_missing_profile demo_ext "u8" "tea" fresh_world)
    as (w' & Hrun & Htr & _); [reflexivity|].
  exists w'. split; [exact Hrun|exact Htr].
Defined.

Lemma set_profile_then_search_witness :
  ∃ out w1 w2,
    freigent_set_profile "u4" dee fresh_world = (Ok out, w1) ∧
    freigent_search demo_ext "u4" "tea" w1
    = (Ok (VDict [("products", VList [VDict [("name", VStr "gift for Dee")]]);
                  ("summary_for_user",
                   VStr "No summary_for_user provided by the model.")]), w2).
Proof.
  assert (Hset : ∃ out w1, freigent_set_profile "u4" dee fresh_world = (Ok out, w1))
    by (eexists _, _; vm_compute; reflexivity).
  destruct Hset as (out & w1 & Hset).
  destruct (set_profile_then_search demo_ext "u4" "tea" dee fresh_world w1 out Hset)
    as (fr & w2 & _ & Hsearch & _).
  exists out, w1, w2. split; [exact Hset|exact Hsearch].
Defined.

Lemma worker_without_client_keeps_mailbox_witness :
  process_recommendation_requests_for_agent demo_ext "u2" 10 no_key_world
  = (Raise missing_api_key, no_key_world) ∧
  inbox_of (hub no_key_world) "u2" = [demo_request "m-1" "u1" "u2"].
Proof.
  split; [|reflexivity].
  apply (worker_without_client_keeps_mailbox demo_ext "u2" 10 no_key_world).
  - reflexivity.
  - left. reflexivity.
Defined.

Lemma worker_consumes_other_messages_witness :
  ∃ w',
    process_recommendation_requests_for_agent demo_ext "u2" 2 notes_world
    = (Ok [ignored_summary demo_ext (demo_note "n-1" "u3" "u2");
           ignored_summary demo_ext (demo_note "n-2" "u3" "u2")], w') ∧
    inbox_of (hub w') "u2" = [].
Proof.
  destruct (worker_consumes_other_messages demo_ext "u2" 2 notes_world)
    as (w' & Hrun & _ & _ & Hempty & _).
  - right. exists "sk-test". split; [reflexivity|discriminate].
  - repeat constructor.
  - exists w'. split; [exact Hrun|exact Hempty].
Defined.

Lemma worker_stops_on_failed_lookup_witness :
  ∃ w',
    process_recommendation_requests_for_agent demo_ext "u2" 10 odd_world
    = (Raise SqliteBindError, w') ∧
    (∃ reply, inbox_of (hub w') "u1" = [reply] ∧
              answers "u2" (demo_request "m-0" "u1" "u2") reply) ∧
    inbox_of (hub w') "u2" = [] ∧
    inbox_of (hub w') "u3" = [].
Proof.
  destruct (worker_stops_on_failed_lookup demo_ext "u2" 10 odd_world
              [demo_note "n-1" "u3" "u2"; demo_request "m-0" "u1" "u2"]
              [demo_request "m-2" "u3" "u2"]
              odd_request SqliteBindError)
    as (w' & evs & Hrun & _ & _ & Hans & Hin).
  - reflexivity.
  - repeat constructor; intros _; eexists; reflexivity.
  - reflexivity.
  - right. exists "sk-test". split; [reflexivity|discriminate].
  - reflexivity.
  - change (filter _ _) with [demo_request "m-0" "u1" "u2"] in Hans.
    apply Forall2_cons_inv_l in Hans as (reply & rest & Hreply & Hrest & Hevs).
    apply Forall2_nil_inv_l in Hrest as ->.
    pose proof Hreply as (_ & Hto & _).
    exists w'. split; [exact Hrun|].
    rewrite (Hin "u1"), (Hin "u2"), (Hin "u3"), Hevs. unfold addressed_to.
    rewrite filter_cons_True by exact Hto.
    rewrite !filter_cons_False by (rewrite Hto; discriminate).
    split_and!; [|reflexivity|reflexivity].
    exists reply. by split.
Defined.

Lemma worker_returns_summaries_witness :
  ∃ outs w',
    process_recommendation_requests_for_agent demo_ext "u2" 10 busy_world = (Ok outs, w') ∧
    length outs = 3%nat.
Proof.
  apply (worker_returns_summaries demo_ext "u2" 10 busy_world).
  - right. exists "sk-test". split; [reflexivity|discriminate].
  - repeat constructor; intros _; eexists; reflexivity.
Defined.

Lemma auto_search_without_client_witness :
  ∃ w',
    freigent_auto_search demo_ext "u1" "tea" no_key_world = (Raise missing_api_key, w') ∧
    trace w' = [EvDbLoadProfile (VStr "u1")] ∧
    hub w' = hub no_key_world.
Proof.
  destruct (auto_search_without_client demo_ext "u1" "tea" no_key_world ada)
    as (w' & Hrun & Htr & Hhub & _).
  - reflexivity.
  - reflexivity.
  - left. reflexivity.
  - exists w'. by split_and!.
Defined.

Lemma auto_search_empties_base_mailbox_witness :
  ∃ resp w',
    freigent_auto_search demo_ext "u1" "tea" stale_world = (Ok resp, w') ∧
    inbox_of (hub stale_world) "u1" = [stale_response] ∧
    inbox_of (hub w') "u1" = [].
Proof.
  assert (Hrun : ∃ resp w',
            freigent_auto_search demo_ext "u1" "tea" stale_world = (Ok resp, w'))
    by (eexists _, _; vm_compute; reflexivity).
  destruct Hrun as (resp & w' & Hrun).
  destruct (auto_search_empties_base_mailbox demo_ext "u1" "tea" stale_world w' resp Hrun)
    as (Hempty & _).
  exists resp, w'. split_and!; [exact Hrun|reflexivity|exact Hempty].
Defined.

Lemma auto_search_registers_helpers_witness :
  ∃ resp w',
    freigent_auto_search demo_ext "u1" "tea" fresh_world = (Ok resp, w') ∧
    helper_agent_ids resp = ["u2"; "u3"] ∧
    ∃ prof, get_agent (hub w') "u3"
            = Some {| agent_id := "u3"; agent_type := "freigent";
                      display_name := prof_name prof;
                      personality_summary := prof_personality prof |}.
Proof.
  eexists _, _. split; [vm_compute; reflexivity|]. split; [reflexivity|].
  pose proof (λ resp w' (Hrun : freigent_auto_search demo_ext "u1" "tea" fresh_world
                                = (Ok resp, w')) Hin,
    auto_search_registers_helpers demo_ext "u1" "tea" fresh_world w' resp "u3" Hrun Hin)
    as Hthm.
  edestruct Hthm as (prof & _ & Hreg); [vm_compute; reflexivity| |].
  - apply elem_of_cons. right. apply elem_of_cons. by left.
  - exists prof. exact Hreg.
Defined.

Lemma auto_search_every_helper_answers_witness :
  ∃ resp w',
    freigent_auto_search demo_ext "u1" "tea" fresh_world = (Ok resp, w') ∧
    Forall2 (λ hid hr, hr_agent_id hr = hid ∧
                       ∃ n fr, VDict (hr_result hr)
                               = llm_result demo_ext n fr ada (VStr "tea"))
      ["u2"; "u3"] (helper_results resp).
Proof.
  eexists _, _. split; [vm_compute; reflexivity|].
  match goal with
  | |- context [helper_results ?resp] =>
      pose proof (λ w' Hrun,
        auto_search_every_helper_answers demo_ext "u1" "tea" fresh_world w' resp Hrun)
        as Hthm
  end.
  edestruct Hthm as (profile & Hload & Hids & Hall); [vm_compute; reflexivity|..].
  - apply (bool_decide_unpack _). vm_compute. exact I.
  - reflexivity.
  - intros hid _. reflexivity.
  - injection Hload as <-. exact Hall.
Defined.
